(** * MCQ generator: the response normalizer and the render loop of app.py

    A shallow embedding of [generate_mcqs] and of the two Streamlit columns of
    [src/app.py], and the properties of its specification.

    Conventions of the embedding.
    - A Python [str] is a [string], one [ascii] per code point (code points
      below 256).
    - A Python value is a [pyval]; a [dict] is an association list in
      insertion order.
    - A Streamlit call is an event appended to the page log; an f-string is
      the list of its literal and interpolated fragments, left unrendered.
    - A statement that may raise is a computation of [M]: a log of page events
      with either the raised exception or the value. *)

From Stdlib Require Import List String Ascii ZArith Bool Arith Lia.
From Stdlib Require Import SpecFloat.
Import ListNotations.
Set Warnings "-register-all".
Local Open Scope string_scope.
Local Open Scope list_scope.

(** ** Python values *)

Inductive pyval : Type :=
| PyNone
| PyBool (b : bool)
| PyInt (z : Z)
| PyFloat (f : spec_float)
| PyStr (s : string)
| PyList (items : list pyval)
| PyDict (items : list (string * pyval)).

(** [isinstance(v, list)] and [isinstance(v, dict)]. *)
Definition is_list (v : pyval) : bool :=
  match v with PyList _ => true | _ => false end.

Definition is_dict (v : pyval) : bool :=
  match v with PyDict _ => true | _ => false end.

(** Operations that raise [TypeError] on an operand of the wrong type. *)
Inductive pyop : Type := OpGetItem | OpLen | OpIter.

(** The exceptions of the program; every one is a subclass of [Exception]. *)
Inductive exn : Type :=
| JSONDecodeError
| KeyError (key : string)
| TypeError (op : pyop) (operand : pyval)
| AttributeError (operand : pyval) (attr : string)
| UnboundLocalError (name : string)
| OtherException (cls msg : string).

(** [isinstance(e, json.JSONDecodeError)] and [isinstance(e, KeyError)]. *)
Definition is_JSONDecodeError (e : exn) : bool :=
  match e with JSONDecodeError => true | _ => false end.

Definition is_KeyError (e : exn) : bool :=
  match e with KeyError _ => true | _ => false end.

(** ** Dictionaries *)

Fixpoint dict_lookup (d : list (string * pyval)) (k : string) : option pyval :=
  match d with
  | [] => None
  | (k', v) :: rest => if String.eqb k' k then Some v else dict_lookup rest k
  end.

(** [d[k] = v]: an existing key keeps its position. *)
Fixpoint dict_set (d : list (string * pyval)) (k : string) (v : pyval)
  : list (string * pyval) :=
  match d with
  | [] => [(k, v)]
  | (k', v') :: rest =>
      if String.eqb k' k then (k', v) :: rest else (k', v') :: dict_set rest k v
  end.

(** [dict(pairs)]. *)
Definition dict_of_pairs (pairs : list (string * pyval)) : list (string * pyval) :=
  fold_left (fun d kv => dict_set d (fst kv) (snd kv)) pairs [].

(** ** Built-ins used by the program *)

(** [v[key]] for a string key. *)
Definition py_getitem (v : pyval) (key : string) : exn + pyval :=
  match v with
  | PyDict d =>
      match dict_lookup d key with
      | Some x => inr x
      | None => inl (KeyError key)
      end
  | _ => inl (TypeError OpGetItem v)
  end.

(** [v.get(key, default)]. *)
Definition py_get (v : pyval) (key : string) (default : pyval) : exn + pyval :=
  match v with
  | PyDict d =>
      match dict_lookup d key with
      | Some x => inr x
      | None => inr default
      end
  | _ => inl (AttributeError v "get")
  end.

(** [len(v)]. *)
Definition py_len (v : pyval) : exn + nat :=
  match v with
  | PyStr s => inr (String.length s)
  | PyList l => inr (List.length l)
  | PyDict d => inr (List.length d)
  | _ => inl (TypeError OpLen v)
  end.

Fixpoint chars_of (s : string) : list pyval :=
  match s with
  | EmptyString => []
  | String c rest => PyStr (String c EmptyString) :: chars_of rest
  end.

(** The items a [for] loop over [v] visits. *)
Definition py_iter (v : pyval) : exn + list pyval :=
  match v with
  | PyList l => inr l
  | PyStr s => inr (chars_of s)
  | PyDict d => inr (map (fun kv => PyStr (fst kv)) d)
  | _ => inl (TypeError OpIter v)
  end.

(** [bool(v)], as [not v] and [if v] use it. *)
Definition py_truthy (v : pyval) : bool :=
  match v with
  | PyNone => false
  | PyBool b => b
  | PyInt z => negb (Z.eqb z 0)
  | PyFloat f => match f with S754_zero _ => false | _ => true end
  | PyStr s => negb (String.eqb s EmptyString)
  | PyList l => match l with [] => false | _ => true end
  | PyDict d => match d with [] => false | _ => true end
  end.

(** Whitespace of [str.strip()] among the code points below 256. *)
Definition py_isspace (c : ascii) : bool :=
  let n := nat_of_ascii c in
  (((9 <=? n) && (n <=? 13)) || ((28 <=? n) && (n <=? 32))
   || (n =? 133) || (n =? 160))%nat.

Fixpoint lstrip (s : string) : string :=
  match s with
  | String c rest => if py_isspace c then lstrip rest else s
  | EmptyString => EmptyString
  end.

Fixpoint rstrip (s : string) : string :=
  match s with
  | String c rest =>
      match rstrip rest with
      | EmptyString => if py_isspace c then EmptyString else String c EmptyString
      | r => String c r
      end
  | EmptyString => EmptyString
  end.

(** [s.strip()]. *)
Definition py_strip (s : string) : string := rstrip (lstrip s).

(** ** F-strings and page events *)

Inductive frag : Type :=
| Lit (s : string)
| FmtStr (s : string)
| FmtInt (z : Z)
| FmtVal (v : pyval)
| FmtExn (e : exn)
| FmtJsonDumps (v : pyval) (indent : Z).

Definition fstring : Type := list frag.

Inductive ui_event : Type :=
| st_error (body : fstring)
| st_warning (body : fstring)
| st_info (body : fstring)
| st_success (body : fstring)
| st_write (body : fstring)
| st_subheader (body : fstring)
| st_radio (label : string) (options : pyval) (key : fstring)
           (label_visibility : string) (disabled : bool)
| st_expander (label : string)
| st_spinner (text : string)
| st_divider.

(** ** Computations: a page log and an exception or a value *)

Definition M (A : Type) : Type := list ui_event * (exn + A).

Definition ret {A} (a : A) : M A := ([], inr a).

Definition raise {A} (e : exn) : M A := ([], inl e).

Definition emit (ev : ui_event) : M unit := ([ev], inr tt).

Definition lift {A} (r : exn + A) : M A := ([], r).

Definition bind {A B} (m : M A) (k : A -> M B) : M B :=
  match m with
  | (log, inl e) => (log, inl e)
  | (log, inr a) => let (log', r) := k a in (log ++ log', r)
  end.

(** [try: m  except ...: handler e]. *)
Definition try_except {A} (m : M A) (handler : exn -> M A) : M A :=
  match m with
  | (log, inl e) => let (log', r) := handler e in (log ++ log', r)
  | (log, inr a) => (log, inr a)
  end.

Notation "x <- m ;; k" := (bind m (fun x => k))
  (at level 61, m at next level, right associativity).
Notation "m ;;; k" := (bind m (fun _ => k))
  (at level 61, right associativity).

Definition page {A} (m : M A) : list ui_event := fst m.
Definition outcome {A} (m : M A) : exn + A := snd m.

(** ** The Gemini request and the response normalizer *)

Definition GEMINI_MODEL : string := "gemini-2.5-flash-preview-05-20".

Definition RESPONSE_SCHEMA : pyval :=
  PyDict
    [ ("type", PyStr "ARRAY");
      ("items",
        PyDict
          [ ("type", PyStr "OBJECT");
            ("properties",
              PyDict
                [ ("question", PyDict [("type", PyStr "STRING")]);
                  ("options",
                    PyDict
                      [ ("type", PyStr "ARRAY");
                        ("items", PyDict [("type", PyStr "STRING")]);
                        ("minItems", PyInt 4);
                        ("maxItems", PyInt 4) ]);
                  ("answer", PyDict [("type", PyStr "STRING")]) ]);
            ("required",
              PyList [PyStr "question"; PyStr "options"; PyStr "answer"]) ]) ].

(** What the program calls outside itself: [genai.configure] (the exception
    it raises, if any), the text of [model.generate_content(prompt)] for the
    model of the given name and generation config, and [json.loads]. *)
Record runtime : Type := {
  genai_configure : string -> option exn;
  generate_content : string -> pyval -> list fstring -> exn + string;
  json_loads : string -> exn + pyval
}.

Definition newline : string := String "010"%char EmptyString.

Definition system_prompt : fstring :=
  [ Lit "You are an expert quiz creator. Your role is to generate high-quality, ";
    Lit "multiple-choice questions (MCQs) based *only* on the text provided by the user. ";
    Lit "You must generate exactly four options for each question. ";
    Lit "One of these options must be the correct answer, which is directly supported by the text. ";
    Lit "The other three options must be plausible but incorrect distractors. ";
    Lit "The 'answer' field in your response must exactly match the text of the correct option. ";
    Lit "You MUST format your output as a single JSON array of objects, matching this schema:";
    Lit newline;
    FmtJsonDumps RESPONSE_SCHEMA 2; Lit newline;
    Lit "Do not include any other text or markdown formatting (like ```json) in your response. ";
    Lit "Just provide the raw JSON array." ].

Definition user_prompt (context : string) (num_questions : Z) : fstring :=
  [ Lit "Please generate "; FmtInt num_questions;
    Lit " multiple-choice questions from the following text:";
    Lit newline; Lit newline;
    Lit "---BEGIN TEXT---"; Lit newline; FmtStr context; Lit newline;
    Lit "---END TEXT---" ].

(** The loop [for key, value in mcq_data.items(): if isinstance(value, list):
    ... break]: the first list-valued field, [None] when the loop runs to its
    [else]. *)
Fixpoint first_list_value (items : list (string * pyval)) : option pyval :=
  match items with
  | [] => None
  | (key, value) :: rest =>
      if is_list value then Some value else first_list_value rest
  end.

(** Lines 103-107: the final shape check and the return. *)
Definition return_if_list (mcq_data : pyval) : M pyval :=
  if negb (is_list mcq_data) then
    emit (st_error [Lit "The API returned JSON, but not in the expected array format. Please try again."]) ;;;
    ret PyNone
  else ret mcq_data.

(** Lines 84-107, once [json_string] is bound. *)
Definition normalize (rt : runtime) (json_string : string) : M pyval :=
  if negb (py_truthy (PyStr json_string)) then
    emit (st_error [Lit "API returned a successful but empty response."]) ;;;
    ret PyNone
  else
    mcq_data <- lift (json_loads rt json_string) ;;
    match mcq_data with
    | PyDict items =>
        match first_list_value items with
        | Some value => return_if_list value
        | None =>
            emit (st_error [Lit "The API returned JSON, but not in the expected array format. Please try again."]) ;;;
            ret PyNone
        end
    | _ => return_if_list mcq_data
    end.

(** The two handlers of the second [try] (lines 109-114); [json_string] is
    the local variable, unbound while line 82 has not completed. *)
Definition api_handlers (json_string : option string) (e : exn) : M pyval :=
  if is_JSONDecodeError e then
    match json_string with
    | Some s =>
        emit (st_error
                [ Lit "Failed to decode the API's JSON response. The model might not be following the schema. Response text: ";
                  FmtStr s ]) ;;;
        ret PyNone
    | None => raise (UnboundLocalError "json_string")
    end
  else
    emit (st_error
            [ Lit "An unexpected error occurred while calling the Gemini API: ";
              FmtExn e ]) ;;;
    ret PyNone.

(** Lines 82-111 with [json_string] bound: the normalization step, under the
    handlers of its [try]. *)
Definition normalize_response (rt : runtime) (json_string : string) : M pyval :=
  try_except (normalize rt json_string) (api_handlers (Some json_string)).

Definition generation_config : pyval :=
  PyDict [("response_mime_type", PyStr "application/json")].

Definition full_prompt (context : string) (num_questions : Z) : list fstring :=
  [system_prompt; user_prompt context num_questions].

Definition generate_mcqs (rt : runtime) (context : string) (num_questions : Z)
    (api_key : string) : M pyval :=
  match genai_configure rt api_key with
  | Some e =>
      emit (st_error [Lit "Failed to configure Gemini client: "; FmtExn e]) ;;;
      ret PyNone
  | None =>
      match generate_content rt GEMINI_MODEL generation_config
              (full_prompt context num_questions) with
      | inl e => api_handlers None e
      | inr json_string => normalize_response rt json_string
      end
  end.

(** ** The page: the generate button (col1) and the render loop (col2) *)

(** [st.session_state], of which the program uses the key [mcq_list] only:
    [None] while the key is absent. *)
Record session : Type := { mcq_list : option pyval }.

(** The column [col1] (lines 147-160); the text area and the button are the
    inputs [context_text] and [clicked]. *)
Definition col1 (rt : runtime) (API_KEY : string) (num_questions : Z)
    (context_text : string) (clicked : bool) (ss : session) : M session :=
  emit (st_subheader [Lit "Paste your text here:"]) ;;;
  if clicked then
    if negb (py_truthy (PyStr (py_strip context_text))) then
      emit (st_warning [Lit "Please paste some text into the box first."]) ;;;
      ret ss
    else
      emit (st_spinner "Generating... This might take a moment.") ;;;
      mcq_list <- generate_mcqs rt context_text num_questions API_KEY ;;
      ret {| mcq_list := Some mcq_list |}
  else ret ss.

(** The body of the [try] of the render loop (lines 171-193) for the record
    [mcq] at index [i]; the [continue] of line 178 ends the body. *)
Definition render_body (i : nat) (mcq : pyval) : M unit :=
  question <- lift (py_getitem mcq "question") ;;
  emit (st_write [Lit "**Q"; FmtInt (Z.of_nat i + 1); Lit ": "; FmtVal question; Lit "**"]) ;;;
  options_list <- lift (py_get mcq "options" (PyList [])) ;;
  n <- lift (py_len options_list) ;;
  if negb (Nat.eqb n 4) then
    emit (st_warning [Lit "Q"; FmtInt (Z.of_nat i + 1); Lit " did not return 4 options. Skipping."])
  else
    emit (st_radio "Options" options_list [Lit "mcq_"; FmtInt (Z.of_nat i)] "collapsed" true) ;;;
    emit (st_expander "Show Answer") ;;;
    answer <- lift (py_getitem mcq "answer") ;;
    emit (st_success [Lit "Correct Answer: "; FmtVal answer]) ;;;
    emit st_divider.

(** The handlers of the render loop (lines 195-198). *)
Definition render_handlers (i : nat) (mcq : pyval) (e : exn) : M unit :=
  if is_KeyError e then
    emit (st_error
            [ Lit "Error displaying MCQ "; FmtInt (Z.of_nat i + 1);
              Lit ": Missing expected key "; FmtExn e;
              Lit ". Data: "; FmtVal mcq ])
  else
    emit (st_error
            [ Lit "An unknown error occurred while displaying MCQ ";
              FmtInt (Z.of_nat i + 1); Lit ": "; FmtExn e ]).

(** One turn of the loop: the [try] statement for the record at index [i]. *)
Definition render_record (i : nat) (mcq : pyval) : M unit :=
  try_except (render_body i mcq) (render_handlers i mcq).

(** [for i, mcq in enumerate(...)], from index [i] on. *)
Fixpoint render_loop (i : nat) (batch : list pyval) : M unit :=
  match batch with
  | [] => ret tt
  | mcq :: rest => render_record i mcq ;;; render_loop (S i) rest
  end.

(** The column [col2] (lines 162-198). *)
Definition col2 (ss : session) : M unit :=
  emit (st_subheader [Lit "Generated MCQs"]) ;;;
  match mcq_list ss with
  | None =>
      emit (st_info [Lit "Click the 'Generate MCQs' button to see your questions here."])
  | Some stored =>
      if negb (py_truthy stored) then
        emit (st_info [Lit "Click the 'Generate MCQs' button to see your questions here."])
      else
        batch <- lift (py_iter stored) ;;
        render_loop 0 batch
  end.

(** One run of the script from the main layout on: [col1], then [col2] on the
    session state [col1] leaves. *)
Definition main_layout (rt : runtime) (API_KEY : string) (num_questions : Z)
    (context_text : string) (clicked : bool) (ss : session) : M session :=
  ss' <- col1 rt API_KEY num_questions context_text clicked ss ;;
  col2 ss' ;;;
  ret ss'.

(** ** A reader for JSON texts

    [Json.loads] follows the decoder of Python's [json] module on the texts
    without fractional or exponent numbers, without [\u] escapes and with
    arrays and objects nested no deeper than [max_depth]; on the other texts
    it gives no answer ([None]).  An integer literal of more than 4300 digits
    raises the [ValueError] of [int], as the decoder lets it.  It is the
    [json_loads] of the runtime on which the scenarios of the specification
    are run; the properties below are proved for every runtime. *)

Module Json.

Inductive result (A : Type) : Type :=
| Ok (a : A) (rest : string)
| Failed (e : exn)
| Unsupported.
Arguments Ok {A} a rest.
Arguments Failed {A} e.
Arguments Unsupported {A}.

(** The text is no JSON document: [JSONDecodeError]. *)
Definition malformed {A : Type} : result A := Failed JSONDecodeError.

Definition dquote : ascii := "034"%char.

(** The whitespace of the decoder: space, tab, line feed, carriage return. *)
Definition is_ws (c : ascii) : bool :=
  (c =? " ")%char || (c =? "009")%char || (c =? "010")%char || (c =? "013")%char.

Fixpoint skip_ws (s : string) : string :=
  match s with
  | String c rest => if is_ws c then skip_ws rest else s
  | EmptyString => EmptyString
  end.

(** [strip_prefix p s] is what follows [p] in [s], when [s] starts with [p]. *)
Fixpoint strip_prefix (p s : string) : option string :=
  match p with
  | EmptyString => Some s
  | String a p' =>
      match s with
      | String b s' => if (a =? b)%char then strip_prefix p' s' else None
      | EmptyString => None
      end
  end.

Definition is_digit (c : ascii) : bool :=
  let n := nat_of_ascii c in ((48 <=? n) && (n <=? 57))%nat.

Definition digit_value (c : ascii) : Z := Z.of_nat (nat_of_ascii c) - 48.

(** The digits at the head of [s], read in base ten after [acc]. *)
Fixpoint read_digits (acc : Z) (s : string) : Z * string :=
  match s with
  | String c rest =>
      if is_digit c then read_digits (10 * acc + digit_value c) rest else (acc, s)
  | EmptyString => (acc, EmptyString)
  end.

Definition starts_with_digit (s : string) : bool :=
  match s with String c _ => is_digit c | EmptyString => false end.

(** The integer part [0|[1-9][0-9]*] of a number. *)
Definition read_natural (s : string) : option (Z * string) :=
  match s with
  | String c rest =>
      if (c =? "0")%char then Some (0%Z, rest)
      else if is_digit c then Some (read_digits 0 s)
      else None
  | EmptyString => None
  end.

(** A fraction [\.[0-9]+] or an exponent [[eE][-+]?[0-9]+] follows. *)
Definition float_follows (s : string) : bool :=
  match s with
  | String c rest =>
      if (c =? ".")%char then starts_with_digit rest
      else if (c =? "e")%char || (c =? "E")%char then
        match rest with
        | String d rest' =>
            if (d =? "-")%char || (d =? "+")%char then starts_with_digit rest'
            else is_digit d
        | EmptyString => false
        end
      else false
  | EmptyString => false
  end.

(** The default limit of [int] on the digits of a literal, and the exception
    of a longer one. *)
Definition max_str_digits : nat := 4300.

Definition int_too_long : exn :=
  OtherException "ValueError"
    "Exceeds the limit (4300 digits) for integer string conversion".

(** The number at the head of [s]; [None] when the number pattern does not
    match there. *)
Definition read_number (s : string) : option (result pyval) :=
  let (negative, digits) :=
    match s with
    | String c rest => if (c =? "-")%char then (true, rest) else (false, s)
    | EmptyString => (false, s)
    end in
  match read_natural digits with
  | Some (n, r) =>
      if float_follows r then Some Unsupported
      else if (max_str_digits <? String.length digits - String.length r)%nat
      then Some (Failed int_too_long)
      else Some (Ok (PyInt (if negative then - n else n)%Z) r)
  | None => None
  end.

(** The characters of a string literal up to its closing quote, the opening
    quote being consumed already. *)
Fixpoint read_string (s : string) : result string :=
  match s with
  | EmptyString => malformed
  | String c rest =>
      if (c =? dquote)%char then Ok EmptyString rest
      else if (c =? "\")%char then
        match rest with
        | EmptyString => malformed
        | String e rest' =>
            let continue_with (d : ascii) :=
              match read_string rest' with
              | Ok body r => Ok (String d body) r
              | Failed x => Failed x
              | Unsupported => Unsupported
              end in
            if (e =? dquote)%char then continue_with dquote
            else if (e =? "\")%char then continue_with "\"%char
            else if (e =? "/")%char then continue_with "/"%char
            else if (e =? "b")%char then continue_with "008"%char
            else if (e =? "f")%char then continue_with "012"%char
            else if (e =? "n")%char then continue_with "010"%char
            else if (e =? "r")%char then continue_with "013"%char
            else if (e =? "t")%char then continue_with "009"%char
            else if (e =? "u")%char then Unsupported
            else malformed
        end
      else if (nat_of_ascii c <? 32)%nat then malformed
      else
        match read_string rest with
        | Ok body r => Ok (String c body) r
        | Failed x => Failed x
        | Unsupported => Unsupported
        end
  end.

(** The nesting of arrays and objects the reader follows. *)
Definition max_depth : nat := 100.

(** The value at the head of [s] ([scan_once]), the elements of an array
    after its first value position, and the members of an object from the
    character after the opening quote of a key.  [depth] is the nesting still
    allowed; [fuel] bounds the calls, and twice the length of the text and two
    is enough. *)
Fixpoint read_value (fuel depth : nat) (s : string) : result pyval :=
  match fuel with
  | O => Unsupported
  | S fuel' =>
      match s with
      | EmptyString => malformed
      | String c rest =>
          if (c =? dquote)%char then
            match read_string rest with
            | Ok body r => Ok (PyStr body) r
            | Failed x => Failed x
            | Unsupported => Unsupported
            end
          else if (c =? "{")%char then
            match depth with
            | O => Unsupported
            | S depth' =>
                match skip_ws rest with
                | String c1 rest1 =>
                    if (c1 =? "}")%char then Ok (PyDict []) rest1
                    else if (c1 =? dquote)%char then
                      match read_members fuel' depth' rest1 [] with
                      | Ok pairs r => Ok (PyDict (dict_of_pairs pairs)) r
                      | Failed x => Failed x
                      | Unsupported => Unsupported
                      end
                    else malformed
                | EmptyString => malformed
                end
            end
          else if (c =? "[")%char then
            match depth with
            | O => Unsupported
            | S depth' =>
                match skip_ws rest with
                | String c1 rest1 =>
                    if (c1 =? "]")%char then Ok (PyList []) rest1
                    else
                      match read_elements fuel' depth' (String c1 rest1) [] with
                      | Ok values r => Ok (PyList values) r
                      | Failed x => Failed x
                      | Unsupported => Unsupported
                      end
                | EmptyString => malformed
                end
            end
          else
            match strip_prefix "null" s, strip_prefix "true" s, strip_prefix "false" s with
            | Some r, _, _ => Ok PyNone r
            | None, Some r, _ => Ok (PyBool true) r
            | None, None, Some r => Ok (PyBool false) r
            | None, None, None =>
                match read_number s with
                | Some res => res
                | None =>
                    match strip_prefix "NaN" s, strip_prefix "Infinity" s,
                          strip_prefix "-Infinity" s with
                    | Some r, _, _ => Ok (PyFloat S754_nan) r
                    | None, Some r, _ => Ok (PyFloat (S754_infinity false)) r
                    | None, None, Some r => Ok (PyFloat (S754_infinity true)) r
                    | None, None, None => malformed
                    end
                end
            end
      end
  end

with read_elements (fuel depth : nat) (s : string) (acc : list pyval)
  : result (list pyval) :=
  match fuel with
  | O => Unsupported
  | S fuel' =>
      match read_value fuel' depth s with
      | Ok v r =>
          match skip_ws r with
          | String c rest =>
              if (c =? "]")%char then Ok (rev (v :: acc)) rest
              else if (c =? ",")%char then
                read_elements fuel' depth (skip_ws rest) (v :: acc)
              else malformed
          | EmptyString => malformed
          end
      | Failed x => Failed x
      | Unsupported => Unsupported
      end
  end

with read_members (fuel depth : nat) (s : string) (acc : list (string * pyval))
  : result (list (string * pyval)) :=
  match fuel with
  | O => Unsupported
  | S fuel' =>
      match read_string s with
      | Ok key r =>
          match skip_ws r with
          | String c rest =>
              if (c =? ":")%char then
                match read_value fuel' depth (skip_ws rest) with
                | Ok v r' =>
                    match skip_ws r' with
                    | String c' rest' =>
                        if (c' =? "}")%char then Ok (rev ((key, v) :: acc)) rest'
                        else if (c' =? ",")%char then
                          match skip_ws rest' with
                          | String q rest'' =>
                              if (q =? dquote)%char then
                                read_members fuel' depth rest'' ((key, v) :: acc)
                              else malformed
                          | EmptyString => malformed
                          end
                        else malformed
                    | EmptyString => malformed
                    end
                | Failed x => Failed x
                | Unsupported => Unsupported
                end
              else malformed
          | EmptyString => malformed
          end
      | Failed x => Failed x
      | Unsupported => Unsupported
      end
  end.

(** [json.loads(s)]: one value between optional whitespace, then the end of
    the text. *)
Definition loads (s : string) : option (exn + pyval) :=
  match read_value (2 * String.length s + 2) max_depth (skip_ws s) with
  | Ok v rest =>
      match skip_ws rest with
      | EmptyString => Some (inr v)
      | String _ _ => Some (inl JSONDecodeError)
      end
  | Failed e => Some (inl e)
  | Unsupported => None
  end.

End Json.

(** ** The runtime of the scenarios *)

(** A runtime whose client configures, whose model answers [response], and
    whose [json.loads] is the reader above. *)
Definition scenario_runtime (response : exn + string) : runtime :=
  {| genai_configure := fun _ => None;
     generate_content := fun _ _ _ => response;
     json_loads := fun s =>
       match Json.loads s with
       | Some r => r
       | None => inl (OtherException "NotImplementedError" "text outside the reader")
       end |}.

(** [quoted s] is [s] between double quotes. *)
Definition quoted (s : string) : string :=
  String Json.dquote (s ++ String Json.dquote EmptyString).

(** ** The failures of the specification, as the reports the program shows *)

Definition EmptyResponse : fstring :=
  [Lit "API returned a successful but empty response."].

Definition MalformedJson (json_string : string) : fstring :=
  [ Lit "Failed to decode the API's JSON response. The model might not be following the schema. Response text: ";
    FmtStr json_string ].

Definition UnexpectedShape : fstring :=
  [Lit "The API returned JSON, but not in the expected array format. Please try again."].

(** [m] fails with [report]: the report is the one thing shown, and [None]
    is returned. *)
Definition fails_with (m : M pyval) (report : fstring) : Prop :=
  m = ([st_error report], inr PyNone).

(** No field of the object is list-valued. *)
Definition no_list_field (d : list (string * pyval)) : Prop :=
  Forall (fun kv => is_list (snd kv) = false) d.

(** [json.loads] rejects the empty text. *)
Definition rejects_empty (rt : runtime) : Prop :=
  json_loads rt EmptyString = inl JSONDecodeError.

(** [enumerate(batch)] from index [i]. *)
Definition enumerate (i : nat) (batch : list pyval) : list (nat * pyval) :=
  combine (seq i (List.length batch)) batch.

(** What the loop shows for the record [mcq] at index [i]. *)
Definition record_page (p : nat * pyval) : list ui_event :=
  page (render_record (fst p) (snd p)).

(** The events of the render loop for the record at index [i]. *)
Definition question_header (i : nat) (question : pyval) : ui_event :=
  st_write [Lit "**Q"; FmtInt (Z.of_nat i + 1); Lit ": "; FmtVal question; Lit "**"].

Definition options_warning (i : nat) : ui_event :=
  st_warning [Lit "Q"; FmtInt (Z.of_nat i + 1); Lit " did not return 4 options. Skipping."].

Definition options_radio (i : nat) (options_list : pyval) : ui_event :=
  st_radio "Options" options_list [Lit "mcq_"; FmtInt (Z.of_nat i)] "collapsed" true.

Definition answer_box (answer : pyval) : list ui_event :=
  [ st_expander "Show Answer";
    st_success [Lit "Correct Answer: "; FmtVal answer];
    st_divider ].

Definition missing_key_report (i : nat) (key : string) (mcq : pyval) : ui_event :=
  st_error
    [ Lit "Error displaying MCQ "; FmtInt (Z.of_nat i + 1);
      Lit ": Missing expected key "; FmtExn (KeyError key);
      Lit ". Data: "; FmtVal mcq ].

Definition idle_info : ui_event :=
  st_info [Lit "Click the 'Generate MCQs' button to see your questions here."].

(** The records and texts of the scenarios. *)
Definition mcq_q1 : pyval :=
  PyDict
    [ ("question", PyStr "Q1");
      ("options", PyList [PyStr "A"; PyStr "B"; PyStr "C"; PyStr "D"]);
      ("answer", PyStr "B") ].

Definition mcq_three_options : pyval :=
  PyDict
    [ ("question", PyStr "Q2");
      ("options", PyList [PyStr "A"; PyStr "B"; PyStr "C"]);
      ("answer", PyStr "A") ].

Definition mcq_without_answer : pyval :=
  PyDict
    [ ("question", PyStr "Q3");
      ("options", PyList [PyStr "A"; PyStr "B"; PyStr "C"]) ].

Definition mcq_without_question : pyval :=
  PyDict
    [ ("options", PyList [PyStr "A"; PyStr "B"; PyStr "C"; PyStr "D"]);
      ("answer", PyStr "B") ].

Definition mcq_four_options_no_answer : pyval :=
  PyDict
    [ ("question", PyStr "Q4");
      ("options", PyList [PyStr "A"; PyStr "B"; PyStr "C"; PyStr "D"]) ].

(** The text [[{"question":"Q1","options":["A","B","C","D"],"answer":"B"}]]. *)
Definition text_q1 : string :=
  "[{" ++ quoted "question" ++ ":" ++ quoted "Q1" ++ ","
  ++ quoted "options" ++ ":[" ++ quoted "A" ++ "," ++ quoted "B" ++ ","
  ++ quoted "C" ++ "," ++ quoted "D" ++ "]," ++ quoted "answer" ++ ":"
  ++ quoted "B" ++ "}]".

(** The text [{"count": 1, "questions": [], "extra": [7]}]. *)
Definition text_wrapped : string :=
  "{" ++ quoted "count" ++ ": 1, " ++ quoted "questions" ++ ": [], "
  ++ quoted "extra" ++ ": [7]}".

(** The text [{"count": 1, "note": "none"}]. *)
Definition text_no_list : string :=
  "{" ++ quoted "count" ++ ": 1, " ++ quoted "note" ++ ": " ++ quoted "none" ++ "}".

(** The rest of the body of the render loop from the test of line 176 on,
    [n] being [len(options_list)]. *)
Definition after_length_test (i : nat) (mcq options_list : pyval) (n : nat)
  : M unit :=
  if negb (Nat.eqb n 4) then emit (options_warning i)
  else
    emit (options_radio i options_list) ;;;
    emit (st_expander "Show Answer") ;;;
    answer <- lift (py_getitem mcq "answer") ;;
    emit (st_success [Lit "Correct Answer: "; FmtVal answer]) ;;;
    emit st_divider.

(** The text [{"total": 3, "items": [1, "x", null]}]. *)
Definition text_odd_items : string :=
  "{" ++ quoted "total" ++ ": 3, " ++ quoted "items" ++ ": [1, " ++ quoted "x"
  ++ ", null]}".

(** A runtime whose model answers [text_q1], and one whose call fails. *)
Definition rt_q1 : runtime := scenario_runtime (inr text_q1).

Definition rt_quota : runtime :=
  scenario_runtime (inl (OtherException "ResourceExhausted" "quota exceeded")).

(** ** The start of the script: the API key (lines 121-129) *)

(** How a run of the script ends before its last line: [st.stop()], whose
    exception is no subclass of [Exception], or an exception nothing
    catches. *)
Inductive halted : Type :=
| Stopped
| Uncaught (e : exn).

(** The check of the key.  [secret] is [st.secrets.get("GOOGLE_API_KEY")]:
    the exception it raises, or the string stored under the key, [None]
    without the key. *)
Definition check_api_key (secret : exn + option string)
  : list ui_event * (halted + string) :=
  match secret with
  | inr API_KEY =>
      let truthy :=
        match API_KEY with
        | Some key => py_truthy (PyStr key)
        | None => py_truthy PyNone
        end in
      match API_KEY with
      | Some key =>
          if negb truthy then
            ([st_error [Lit "GOOGLE_API_KEY not found. Please add it to your .streamlit/secrets.toml file."]],
             inl Stopped)
          else ([], inr key)
      | None =>
          ([st_error [Lit "GOOGLE_API_KEY not found. Please add it to your .streamlit/secrets.toml file."]],
           inl Stopped)
      end
  | inl _ =>
      ([st_error [Lit "Could not read Streamlit secrets. Are you running this locally with a .streamlit/secrets.toml file?"]],
       inl Stopped)
  end.

(** One run of the script: the check of the key, then the main layout (the
    title and the sidebar show the same text on every run and are left
    out). *)
Definition app (rt : runtime) (secret : exn + option string)
    (num_questions : Z) (context_text : string) (clicked : bool) (ss : session)
  : list ui_event * (halted + session) :=
  match check_api_key secret with
  | (log, inl h) => (log, inl h)
  | (log, inr API_KEY) =>
      match main_layout rt API_KEY num_questions context_text clicked ss with
      | (log', inl e) => (log ++ log', inl (Uncaught e))
      | (log', inr ss') => (log ++ log', inr ss')
      end
  end.

(** ** Vocabulary of the further properties *)

(** Every character of [s] is whitespace for [str.strip()]. *)
Fixpoint all_space (s : string) : bool :=
  match s with
  | EmptyString => true
  | String c rest => py_isspace c && all_space rest
  end.

Definition blank_warning : ui_event :=
  st_warning [Lit "Please paste some text into the box first."].

Definition col1_subheader : ui_event := st_subheader [Lit "Paste your text here:"].

Definition col2_subheader : ui_event := st_subheader [Lit "Generated MCQs"].

Definition generating_spinner : ui_event :=
  st_spinner "Generating... This might take a moment.".

Definition unknown_error_report (i : nat) (e : exn) : ui_event :=
  st_error
    [ Lit "An unknown error occurred while displaying MCQ ";
      FmtInt (Z.of_nat i + 1); Lit ": "; FmtExn e ].

Definition unexpected_error_report (e : exn) : ui_event :=
  st_error [Lit "An unexpected error occurred while calling the Gemini API: "; FmtExn e].

(** The key of the radio of the record at index [i]. *)
Definition radio_key (i : nat) : fstring := [Lit "mcq_"; FmtInt (Z.of_nat i)].

(** The keys of the radios of a page, in order. *)
Fixpoint radio_keys (log : list ui_event) : list fstring :=
  match log with
  | [] => []
  | st_radio _ _ key _ _ :: rest => key :: radio_keys rest
  | _ :: rest => radio_keys rest
  end.

(** What [mcq.get('options', [])] gives on the fields [d]. *)
Definition options_of (d : list (string * pyval)) : pyval :=
  match dict_lookup d "options" with
  | Some x => x
  | None => PyList []
  end.

(** The page of the record [mcq] at index [i], case by case. *)
Definition record_table (i : nat) (mcq : pyval) : list ui_event :=
  match mcq with
  | PyDict d =>
      match dict_lookup d "question" with
      | None => [missing_key_report i "question" mcq]
      | Some question =>
          match py_len (options_of d) with
          | inl e => [question_header i question; unknown_error_report i e]
          | inr n =>
              if Nat.eqb n 4 then
                match dict_lookup d "answer" with
                | Some answer =>
                    question_header i question :: options_radio i (options_of d)
                      :: answer_box answer
                | None =>
                    [ question_header i question; options_radio i (options_of d);
                      st_expander "Show Answer"; missing_key_report i "answer" mcq ]
                end
              else [question_header i question; options_warning i]
          end
      end
  | _ => [unknown_error_report i (TypeError OpGetItem mcq)]
  end.

(** The stored batch is one [generate_mcqs] returns: nothing yet, [None], or
    a list. *)
Definition session_ok (ss : session) : Prop :=
  match mcq_list ss with
  | None => True
  | Some v => v = PyNone \/ exists l, v = PyList l
  end.

(** A record of a batch that is no object, and one whose options have no
    length. *)
Definition mcq_number_options : pyval :=
  PyDict [("question", PyStr "Q5"); ("options", PyInt 4); ("answer", PyStr "A")].

(** [replicate n c] is the character [c], [n] times. *)
Fixpoint replicate (n : nat) (c : ascii) : string :=
  match n with
  | O => EmptyString
  | S n' => String c (replicate n' c)
  end.

(** The text of 4301 digits [1] followed by [ not json]: no JSON document,
    and one whose number [int] refuses before the decoder sees what follows
    it. *)
Definition text_long_integer : string :=
  replicate 4301 "1"%char ++ " not json".

(** * Properties *)

(** ** The monad *)

Lemma bind_ret_l {A B} (a : A) (k : A -> M B) : bind (ret a) k = k a.
Proof. unfold bind, ret. destruct (k a) as [log r]. reflexivity. Qed.

Lemma bind_lift_inr {A B} (a : A) (k : A -> M B) : bind (lift (inr a)) k = k a.
Proof. apply bind_ret_l. Qed.

Lemma bind_lift_inl {A B} (e : exn) (k : A -> M B) :
  bind (lift (inl e)) k = raise e.
Proof. reflexivity. Qed.

Lemma bind_emit {B} (ev : ui_event) (k : unit -> M B) :
  bind (emit ev) k = (ev :: page (k tt), outcome (k tt)).
Proof. unfold bind, emit, page, outcome. destruct (k tt). reflexivity. Qed.

Lemma page_bind_normal {A B} (m : M A) (k : A -> M B) (a : A) :
  outcome m = inr a ->
  bind m k = (page m ++ page (k a), outcome (k a)).
Proof.
  destruct m as [log r]. simpl. intros ->. unfold bind, page, outcome.
  destruct (k a). reflexivity.
Qed.

(** ** The first list-valued field *)

Lemma first_list_value_is_list (d : list (string * pyval)) (v : pyval) :
  first_list_value d = Some v -> is_list v = true.
Proof.
  induction d as [|[k x] d IH]; simpl; [discriminate|].
  destruct (is_list x) eqn:E; [|exact IH].
  intros [= <-]. exact E.
Qed.

Lemma first_list_value_split (pre post : list (string * pyval))
    (k : string) (l : list pyval) :
  no_list_field pre ->
  first_list_value (pre ++ (k, PyList l) :: post) = Some (PyList l).
Proof.
  induction 1 as [|[k' x] pre Hx _ IH]; simpl; [reflexivity|].
  simpl in Hx. rewrite Hx. exact IH.
Qed.

Lemma first_list_value_none (d : list (string * pyval)) :
  first_list_value d = None <-> no_list_field d.
Proof.
  unfold no_list_field. induction d as [|[k x] d IH]; simpl.
  - split; [constructor | reflexivity].
  - destruct (is_list x) eqn:E.
    + split; [discriminate|]. intros H. inversion H as [|? ? Hx _]; subst.
      simpl in Hx. congruence.
    + rewrite IH. split; [intros H; constructor; [exact E | exact H]|].
      intros H. inversion H; assumption.
Qed.

(** ** The response normalizer *)

Lemma return_if_list_list (l : list pyval) :
  return_if_list (PyList l) = ([], inr (PyList l)).
Proof. reflexivity. Qed.

Lemma return_if_list_other (v : pyval) :
  is_list v = false -> return_if_list v = ([st_error UnexpectedShape], inr PyNone).
Proof. unfold return_if_list. intros ->. reflexivity. Qed.

Lemma normalize_nonempty (rt : runtime) (c : ascii) (s : string) :
  normalize rt (String c s) =
    bind (lift (json_loads rt (String c s)))
      (fun mcq_data =>
         match mcq_data with
         | PyDict items =>
             match first_list_value items with
             | Some value => return_if_list value
             | None => emit (st_error UnexpectedShape) ;;; ret PyNone
             end
         | _ => return_if_list mcq_data
         end).
Proof. reflexivity. Qed.

(** The normalizer on a non-empty text that [json.loads] accepts. *)
Lemma normalize_response_loaded (rt : runtime) (c : ascii) (s : string) (v : pyval) :
  json_loads rt (String c s) = inr v ->
  normalize_response rt (String c s) =
    match v with
    | PyDict items =>
        match first_list_value items with
        | Some value => ([], inr value)
        | None => ([st_error UnexpectedShape], inr PyNone)
        end
    | PyList l => ([], inr v)
    | _ => ([st_error UnexpectedShape], inr PyNone)
    end.
Proof.
  intros Hload. unfold normalize_response.
  rewrite normalize_nonempty, Hload, bind_lift_inr.
  destruct v as [| b | z | f | t | l | d]; try reflexivity.
  destruct (first_list_value d) as [value|] eqn:E; [|reflexivity].
  apply first_list_value_is_list in E.
  destruct value; try discriminate E. reflexivity.
Qed.

(** The normalizer on a non-empty text on which [json.loads] raises. *)
Lemma normalize_response_raised (rt : runtime) (c : ascii) (s : string) (e : exn) :
  json_loads rt (String c s) = inl e ->
  normalize_response rt (String c s) = api_handlers (Some (String c s)) e.
Proof.
  intros Hload. unfold normalize_response.
  rewrite normalize_nonempty, Hload, bind_lift_inl. unfold raise, try_except.
  destruct (api_handlers _ e). reflexivity.
Qed.

Lemma normalize_response_empty (rt : runtime) :
  normalize_response rt EmptyString = ([st_error EmptyResponse], inr PyNone).
Proof. reflexivity. Qed.

Lemma loaded_nonempty (rt : runtime) (s : string) (v : pyval) :
  rejects_empty rt -> json_loads rt s = inr v ->
  exists c s', s = String c s'.
Proof.
  unfold rejects_empty. intros Hempty Hload. destruct s as [|c s'].
  - congruence.
  - eauto.
Qed.

(** C1. For every raw response text that parses as a JSON array, the
    normalizer returns that array unchanged and reports nothing: the items are
    not inspected, whatever their shape. *)
Theorem normalizer_returns_array_unchanged (rt : runtime) (s : string)
    (l : list pyval) :
  rejects_empty rt ->
  json_loads rt s = inr (PyList l) ->
  normalize_response rt s = ([], inr (PyList l)).
Proof.
  intros Hempty Hload.
  destruct (loaded_nonempty rt s _ Hempty Hload) as (c & s' & ->).
  rewrite (normalize_response_loaded rt c s' _ Hload). reflexivity.
Qed.

(** C2. For every raw response text that parses as a JSON object with a
    list-valued field, the normalizer returns the value of the first such
    field in the iteration order of the object: the fields before it are not
    list-valued, the fields after it are not looked at. *)
Theorem normalizer_returns_first_list_field (rt : runtime) (s : string)
    (pre post : list (string * pyval)) (k : string) (l : list pyval) :
  rejects_empty rt ->
  json_loads rt s = inr (PyDict (pre ++ (k, PyList l) :: post)) ->
  no_list_field pre ->
  normalize_response rt s = ([], inr (PyList l)).
Proof.
  intros Hempty Hload Hpre.
  destruct (loaded_nonempty rt s _ Hempty Hload) as (c & s' & ->).
  rewrite (normalize_response_loaded rt c s' _ Hload).
  rewrite (first_list_value_split pre post k l Hpre). reflexivity.
Qed.

(** C3. The normalizer fails with UnexpectedShape exactly when the text
    parses as JSON and the parsed value is an object with no list-valued
    field, or is neither a list nor an object; it then returns [None]. *)
Theorem normalizer_unexpected_shape_iff (rt : runtime) (s : string) :
  rejects_empty rt ->
  fails_with (normalize_response rt s) UnexpectedShape <->
  exists v, json_loads rt s = inr v /\
    ((exists d, v = PyDict d /\ no_list_field d) \/
     (is_list v = false /\ is_dict v = false)).
Proof.
  intros Hempty. unfold fails_with. split.
  - destruct s as [|c s'].
    + rewrite normalize_response_empty. discriminate.
    + destruct (json_loads rt (String c s')) as [e|v] eqn:Hload.
      * rewrite (normalize_response_raised rt c s' e Hload).
        unfold api_handlers. destruct (is_JSONDecodeError e); discriminate.
      * rewrite (normalize_response_loaded rt c s' v Hload).
        intros H. exists v. split; [reflexivity|].
        destruct v as [| b | z | f | t | l | d];
          try (right; split; reflexivity); try discriminate H.
        left. exists d. split; [reflexivity|].
        apply first_list_value_none.
        destruct (first_list_value d) as [value|] eqn:E; [|reflexivity].
        discriminate H.
  - intros (v & Hload & Hshape).
    destruct (loaded_nonempty rt s _ Hempty Hload) as (c & s' & ->).
    rewrite (normalize_response_loaded rt c s' v Hload).
    destruct Hshape as [(d & -> & Hd) | [Hl Hd]].
    + apply first_list_value_none in Hd. rewrite Hd. reflexivity.
    + destruct v; try reflexivity; discriminate.
Qed.

(** C4. For the empty text the normalizer fails with EmptyResponse and
    returns [None], whatever [json.loads] would do with it: the text is not
    parsed. *)
Theorem normalizer_empty_response (rt : runtime) :
  fails_with (normalize_response rt EmptyString) EmptyResponse
  /\ forall loads' : string -> exn + pyval,
       normalize_response
         {| genai_configure := genai_configure rt;
            generate_content := generate_content rt;
            json_loads := loads' |} EmptyString
       = normalize_response rt EmptyString.
Proof. split; [reflexivity | intros loads'; reflexivity]. Qed.

(** The normalizer on a non-empty text on which [json.loads] raises: what
    the two handlers show. *)
Lemma normalizer_malformed_other (rt : runtime) (s : string) (e : exn) :
  s <> EmptyString ->
  json_loads rt s = inl e ->
  (is_JSONDecodeError e = true ->
   normalize_response rt s = ([st_error (MalformedJson s)], inr PyNone))
  /\ (is_JSONDecodeError e = false ->
      normalize_response rt s = ([unexpected_error_report e], inr PyNone)).
Proof.
  intros Hne Hload. destruct s as [|c s']; [congruence|].
  rewrite (normalize_response_raised rt c s' _ Hload).
  unfold api_handlers.
  destruct (is_JSONDecodeError e); split; try reflexivity; discriminate.
Qed.

(** C5, as the code has it.  For every non-empty text on which [json.loads]
    raises, the normalizer returns [None]: under the MalformedJson report
    quoting the text when the exception is a [JSONDecodeError], and under the
    unexpected-error report carrying the exception when it is any other one
    (the [ValueError] of an integer literal too long, a [RecursionError]). *)
Theorem normalizer_parse_failure (rt : runtime) (s : string) (e : exn) :
  s <> EmptyString ->
  json_loads rt s = inl e ->
  (is_JSONDecodeError e = true ->
   fails_with (normalize_response rt s) (MalformedJson s))
  /\ (is_JSONDecodeError e = false ->
      normalize_response rt s = ([unexpected_error_report e], inr PyNone))
  /\ outcome (normalize_response rt s) = inr PyNone.
Proof.
  intros Hne Hload. destruct s as [|c s']; [congruence|].
  rewrite (normalize_response_raised rt c s' _ Hload).
  unfold fails_with, api_handlers.
  destruct (is_JSONDecodeError e); repeat split; try reflexivity; discriminate.
Qed.

(** C5 as stated fails: the text [text_long_integer] is not empty and does
    not parse as JSON, and the normalizer reports it with the unexpected-error
    report, not as MalformedJson. *)
Lemma long_integer_not_malformed_json :
  text_long_integer <> EmptyString
  /\ (forall v, json_loads rt_q1 text_long_integer <> inr v)
  /\ normalize_response rt_q1 text_long_integer
     = ([unexpected_error_report Json.int_too_long], inr PyNone)
  /\ ~ fails_with (normalize_response rt_q1 text_long_integer)
         (MalformedJson text_long_integer).
Proof.
  assert (Hload : json_loads rt_q1 text_long_integer = inl Json.int_too_long)
    by (vm_compute; reflexivity).
  assert (Hne : text_long_integer <> EmptyString)
    by (vm_compute; discriminate).
  assert (Hrun : normalize_response rt_q1 text_long_integer
                 = ([unexpected_error_report Json.int_too_long], inr PyNone)).
  { destruct (normalizer_malformed_other rt_q1 text_long_integer
                Json.int_too_long Hne Hload) as [_ H]. exact (H eq_refl). }
  split; [exact Hne | split; [|split; [exact Hrun|]]].
  - intros v Hv. rewrite Hload in Hv. discriminate Hv.
  - unfold fails_with. rewrite Hrun. unfold MalformedJson, unexpected_error_report.
    intros H. injection H as H. discriminate H.
Qed.

(** ** generate_mcqs as a whole *)

Lemma normalize_response_outcome (rt : runtime) (s : string) :
  (exists l, normalize_response rt s = ([], inr (PyList l)))
  \/ (exists body, normalize_response rt s = ([st_error body], inr PyNone)).
Proof.
  destruct s as [|c s'].
  - right. eexists. apply normalize_response_empty.
  - destruct (json_loads rt (String c s')) as [e|v] eqn:Hload.
    + right. rewrite (normalize_response_raised rt c s' e Hload).
      unfold api_handlers. destruct (is_JSONDecodeError e); eexists; reflexivity.
    + rewrite (normalize_response_loaded rt c s' v Hload).
      destruct v as [| b | z | f | t | l | d];
        try (right; eexists; reflexivity).
      * left. eexists. reflexivity.
      * destruct (first_list_value d) as [value|] eqn:E.
        -- left. apply first_list_value_is_list in E.
           destruct value; try discriminate E. eexists. reflexivity.
        -- right. eexists. reflexivity.
Qed.

(** The three ways [generate_mcqs] ends: a list and a silent page; [None]
    under one error report; or the [UnboundLocalError] of the first handler,
    when the call of the model itself raises [JSONDecodeError]. *)
Lemma generate_mcqs_outcome (rt : runtime) (context : string) (num_questions : Z)
    (api_key : string) :
  (exists l, generate_mcqs rt context num_questions api_key = ([], inr (PyList l)))
  \/ (exists body,
        generate_mcqs rt context num_questions api_key
        = ([st_error body], inr PyNone))
  \/ generate_mcqs rt context num_questions api_key
     = ([], inl (UnboundLocalError "json_string")).
Proof.
  unfold generate_mcqs.
  destruct (genai_configure rt api_key) as [e|].
  - right. left. eexists. reflexivity.
  - destruct (generate_content rt GEMINI_MODEL generation_config
                (full_prompt context num_questions)) as [e|s].
    + destruct e; try (right; left; eexists; reflexivity).
      right. right. reflexivity.
    + destruct (normalize_response_outcome rt s) as [H|H]; [left | right; left];
        exact H.
Qed.

Lemma generate_mcqs_normalizes (rt : runtime) (context : string)
    (num_questions : Z) (api_key s : string) :
  genai_configure rt api_key = None ->
  generate_content rt GEMINI_MODEL generation_config
    (full_prompt context num_questions) = inr s ->
  generate_mcqs rt context num_questions api_key = normalize_response rt s.
Proof. unfold generate_mcqs. intros -> ->. reflexivity. Qed.

(** C8. [generate_mcqs] never fails silently: whenever it returns [None], the
    page shows an error report, emitted on that path. *)
Theorem generate_mcqs_none_is_reported (rt : runtime) (context : string)
    (num_questions : Z) (api_key : string) :
  outcome (generate_mcqs rt context num_questions api_key) = inr PyNone ->
  exists body,
    page (generate_mcqs rt context num_questions api_key) = [st_error body].
Proof.
  destruct (generate_mcqs_outcome rt context num_questions api_key)
    as [(l & ->) | [(body & ->) | ->]]; simpl; intros H.
  - discriminate H.
  - exists body. reflexivity.
  - discriminate H.
Qed.

(** C9. Whenever [generate_mcqs] returns a value other than [None], the value
    is a list; and the list taken out of an object is returned as it is, be it
    empty or of items of any shape. *)
Theorem generate_mcqs_returns_list (rt : runtime) (context : string)
    (num_questions : Z) (api_key : string) :
  (forall v,
     outcome (generate_mcqs rt context num_questions api_key) = inr v ->
     v <> PyNone -> exists l, v = PyList l)
  /\ (forall s pre post k l,
        rejects_empty rt ->
        genai_configure rt api_key = None ->
        generate_content rt GEMINI_MODEL generation_config
          (full_prompt context num_questions) = inr s ->
        json_loads rt s = inr (PyDict (pre ++ (k, PyList l) :: post)) ->
        no_list_field pre ->
        generate_mcqs rt context num_questions api_key = ([], inr (PyList l))).
Proof.
  split.
  - intros v.
    destruct (generate_mcqs_outcome rt context num_questions api_key)
      as [(l & ->) | [(body & ->) | ->]]; simpl; intros [= <-] Hv.
    + exists l. reflexivity.
    + congruence.
  - intros s pre post k l Hempty Hconf Hresp Hload Hpre.
    rewrite (generate_mcqs_normalizes rt context num_questions api_key s Hconf Hresp).
    destruct (loaded_nonempty rt s _ Hempty Hload) as (c & s' & ->).
    rewrite (normalize_response_loaded rt c s' _ Hload).
    rewrite (first_list_value_split pre post k l Hpre). reflexivity.
Qed.

(** ** The render loop *)

(** The [try] of the loop catches whatever its body raises. *)
Lemma render_record_normal (i : nat) (mcq : pyval) :
  outcome (render_record i mcq) = inr tt.
Proof.
  unfold render_record, try_except.
  destruct (render_body i mcq) as [log [e|[]]]; [|reflexivity].
  unfold render_handlers. destruct (is_KeyError e); reflexivity.
Qed.

Lemma enumerate_cons (i : nat) (mcq : pyval) (rest : list pyval) :
  enumerate i (mcq :: rest) = (i, mcq) :: enumerate (S i) rest.
Proof. reflexivity. Qed.

(** The loop never raises, and its page is the pages of its records, each
    a function of the record and its index alone, in order. *)
Lemma render_loop_pages (batch : list pyval) :
  forall i,
    render_loop i batch = (List.concat (map record_page (enumerate i batch)), inr tt).
Proof.
  induction batch as [|mcq rest IH]; intros i; [reflexivity|].
  cbn [render_loop].
  rewrite (page_bind_normal _ _ tt (render_record_normal i mcq)).
  rewrite IH, enumerate_cons. reflexivity.
Qed.

Lemma record_page_no_question (i : nat) (d : list (string * pyval)) :
  dict_lookup d "question" = None ->
  record_page (i, PyDict d) = [missing_key_report i "question" (PyDict d)].
Proof.
  intros Hq. unfold record_page, render_record, render_body. cbn [fst snd].
  unfold py_getitem. rewrite Hq. reflexivity.
Qed.

(** The body of the loop on a record that has its question and whose options
    have a length. *)
Lemma render_body_question (i : nat) (d : list (string * pyval))
    (question options_list : pyval) (n : nat) :
  dict_lookup d "question" = Some question ->
  py_get (PyDict d) "options" (PyList []) = inr options_list ->
  py_len options_list = inr n ->
  render_body i (PyDict d) =
    (question_header i question
       :: page (after_length_test i (PyDict d) options_list n),
     outcome (after_length_test i (PyDict d) options_list n)).
Proof.
  intros Hq Ho Hn. unfold render_body.
  unfold py_getitem at 1.
  rewrite Hq, bind_lift_inr, bind_emit, Ho, bind_lift_inr, Hn, bind_lift_inr.
  reflexivity.
Qed.

Lemma record_page_wrong_count (i : nat) (d : list (string * pyval))
    (question options_list : pyval) (n : nat) :
  dict_lookup d "question" = Some question ->
  py_get (PyDict d) "options" (PyList []) = inr options_list ->
  py_len options_list = inr n ->
  n <> 4 ->
  record_page (i, PyDict d) = [question_header i question; options_warning i].
Proof.
  intros Hq Ho Hn Hne. unfold record_page, render_record. cbn [fst snd].
  rewrite (render_body_question i d question options_list n Hq Ho Hn).
  unfold after_length_test.
  apply Nat.eqb_neq in Hne. rewrite Hne. reflexivity.
Qed.

Lemma record_page_no_answer (i : nat) (d : list (string * pyval))
    (question options_list : pyval) :
  dict_lookup d "question" = Some question ->
  py_get (PyDict d) "options" (PyList []) = inr options_list ->
  py_len options_list = inr 4 ->
  dict_lookup d "answer" = None ->
  record_page (i, PyDict d) =
    [ question_header i question; options_radio i options_list;
      st_expander "Show Answer"; missing_key_report i "answer" (PyDict d) ].
Proof.
  intros Hq Ho Hn Ha. unfold record_page, render_record. cbn [fst snd].
  rewrite (render_body_question i d question options_list 4 Hq Ho Hn).
  unfold after_length_test, py_getitem. rewrite Ha. reflexivity.
Qed.

Lemma record_page_complete (i : nat) (d : list (string * pyval))
    (question options_list answer : pyval) :
  dict_lookup d "question" = Some question ->
  py_get (PyDict d) "options" (PyList []) = inr options_list ->
  py_len options_list = inr 4 ->
  dict_lookup d "answer" = Some answer ->
  record_page (i, PyDict d) =
    question_header i question :: options_radio i options_list :: answer_box answer.
Proof.
  intros Hq Ho Hn Ha. unfold record_page, render_record. cbn [fst snd].
  rewrite (render_body_question i d question options_list 4 Hq Ho Hn).
  unfold after_length_test, py_getitem. rewrite Ha. reflexivity.
Qed.

(** C6. For every batch the loop runs to its end, and its page is the pages
    of the records in order; a record whose options do not number 4 is
    skipped under one report (the option-count warning after its question, or
    the missing-key error when it has no question), and a complete record with
    4 options is rendered in full wherever it stands in the batch. *)
Theorem render_skips_wrong_option_count (batch : list pyval) :
  render_loop 0 batch = (List.concat (map record_page (enumerate 0 batch)), inr tt)
  /\ (forall i d options_list n,
        nth_error batch i = Some (PyDict d) ->
        py_get (PyDict d) "options" (PyList []) = inr options_list ->
        py_len options_list = inr n ->
        n <> 4 ->
        record_page (i, PyDict d) =
          match dict_lookup d "question" with
          | Some question => [question_header i question; options_warning i]
          | None => [missing_key_report i "question" (PyDict d)]
          end)
  /\ (forall i d question options_list answer,
        nth_error batch i = Some (PyDict d) ->
        dict_lookup d "question" = Some question ->
        py_get (PyDict d) "options" (PyList []) = inr options_list ->
        py_len options_list = inr 4 ->
        dict_lookup d "answer" = Some answer ->
        record_page (i, PyDict d) =
          question_header i question :: options_radio i options_list
            :: answer_box answer).
Proof.
  split; [apply render_loop_pages | split].
  - intros i d options_list n _ Ho Hn Hne.
    destruct (dict_lookup d "question") as [question|] eqn:Hq.
    + exact (record_page_wrong_count i d question options_list n Hq Ho Hn Hne).
    + exact (record_page_no_question i d Hq).
  - intros i d question options_list answer _.
    apply record_page_complete.
Qed.

(** C7, as the code has it.  For every batch the loop runs to its end over
    all the records; a record without [question] gets the missing-key error
    report; a record with its question and 4 options but without [answer]
    gets the missing-key error report after its question and options are
    shown; a record with its question whose options do not number 4 gets the
    option-count warning and no error report, with or without [answer]. *)
Theorem render_reports_missing_keys (batch : list pyval) :
  render_loop 0 batch = (List.concat (map record_page (enumerate 0 batch)), inr tt)
  /\ (forall i d,
        nth_error batch i = Some (PyDict d) ->
        dict_lookup d "question" = None ->
        record_page (i, PyDict d) = [missing_key_report i "question" (PyDict d)])
  /\ (forall i d question options_list,
        nth_error batch i = Some (PyDict d) ->
        dict_lookup d "question" = Some question ->
        py_get (PyDict d) "options" (PyList []) = inr options_list ->
        py_len options_list = inr 4 ->
        dict_lookup d "answer" = None ->
        record_page (i, PyDict d) =
          [ question_header i question; options_radio i options_list;
            st_expander "Show Answer"; missing_key_report i "answer" (PyDict d) ])
  /\ (forall i d question options_list n,
        nth_error batch i = Some (PyDict d) ->
        dict_lookup d "question" = Some question ->
        py_get (PyDict d) "options" (PyList []) = inr options_list ->
        py_len options_list = inr n ->
        n <> 4 ->
        record_page (i, PyDict d) = [question_header i question; options_warning i]).
Proof.
  split; [apply render_loop_pages | split; [|split]].
  - intros i d _. apply record_page_no_question.
  - intros i d question options_list _. apply record_page_no_answer.
  - intros i d question options_list n _. apply record_page_wrong_count.
Qed.

(** C7 as stated fails: the record [mcq_without_answer] has no [answer] key,
    and the page of its turn of the loop holds no error report. *)
Lemma missing_answer_without_error_report :
  py_getitem mcq_without_answer "answer" = inl (KeyError "answer")
  /\ record_page (0, mcq_without_answer)
     = [question_header 0 (PyStr "Q3"); options_warning 0]
  /\ ~ exists body, In (st_error body) (record_page (0, mcq_without_answer)).
Proof.
  split; [reflexivity | split; [reflexivity|]].
  intros (body & [H | [H | []]]); discriminate H.
Qed.

(** ** The empty batch *)

(** C10. When the model answers the text [[]], the normalizer returns the
    empty list and reports nothing; the click stores that list; and the second
    column shows for it what it shows while nothing is stored. *)
Theorem empty_array_renders_as_idle (rt : runtime) (API_KEY : string)
    (num_questions : Z) (context_text : string) (ss : session) :
  py_strip context_text <> EmptyString ->
  genai_configure rt API_KEY = None ->
  generate_content rt GEMINI_MODEL generation_config
    (full_prompt context_text num_questions) = inr "[]" ->
  json_loads rt "[]" = inr (PyList []) ->
  normalize_response rt "[]" = ([], inr (PyList []))
  /\ col1 rt API_KEY num_questions context_text true ss
     = ([ st_subheader [Lit "Paste your text here:"];
          st_spinner "Generating... This might take a moment." ],
        inr {| mcq_list := Some (PyList []) |})
  /\ col2 {| mcq_list := Some (PyList []) |}
     = ([st_subheader [Lit "Generated MCQs"]; idle_info], inr tt)
  /\ col2 {| mcq_list := Some (PyList []) |} = col2 {| mcq_list := None |}.
Proof.
  intros Hctx Hconf Hresp Hload.
  assert (Hnorm : normalize_response rt "[]" = ([], inr (PyList []))).
  { rewrite (normalize_response_loaded rt "["%char "]" _ Hload). reflexivity. }
  split; [exact Hnorm | split; [| split; reflexivity]].
  unfold col1. rewrite bind_emit.
  destruct (py_strip context_text) as [|c t] eqn:E; [congruence|].
  cbn [py_truthy String.eqb negb].
  rewrite bind_emit.
  rewrite (generate_mcqs_normalizes rt context_text num_questions API_KEY "[]"
             Hconf Hresp), Hnorm.
  reflexivity.
Qed.

(** * The scenarios of the specification, run *)

Lemma scenario_rejects_empty (response : exn + string) :
  rejects_empty (scenario_runtime response).
Proof. reflexivity. Qed.

(** The text of one well-formed record gives that record, unchanged. *)
Lemma normalizer_returns_array_unchanged_witness :
  json_loads rt_q1 text_q1 = inr (PyList [mcq_q1])
  /\ normalize_response rt_q1 text_q1 = ([], inr (PyList [mcq_q1])).
Proof.
  assert (Hload : json_loads rt_q1 text_q1 = inr (PyList [mcq_q1]))
    by (vm_compute; reflexivity).
  split; [exact Hload|].
  apply (normalizer_returns_array_unchanged rt_q1 text_q1 [mcq_q1]).
  - reflexivity.
  - exact Hload.
Defined.

(** Of two list-valued fields the first is returned, the field before it
    being a number. *)
Lemma normalizer_returns_first_list_field_witness :
  json_loads rt_q1 text_wrapped
  = inr (PyDict ([("count", PyInt 1)] ++ ("questions", PyList [])
                   :: [("extra", PyList [PyInt 7])]))
  /\ normalize_response rt_q1 text_wrapped = ([], inr (PyList [])).
Proof.
  assert (Hload : json_loads rt_q1 text_wrapped
                  = inr (PyDict ([("count", PyInt 1)] ++ ("questions", PyList [])
                                   :: [("extra", PyList [PyInt 7])])))
    by (vm_compute; reflexivity).
  split; [exact Hload|].
  apply (normalizer_returns_first_list_field rt_q1 text_wrapped
           [("count", PyInt 1)] [("extra", PyList [PyInt 7])] "questions" []).
  - reflexivity.
  - exact Hload.
  - constructor; [reflexivity | constructor].
Defined.

(** An object of a number and a string has no list to return. *)
Lemma normalizer_unexpected_shape_iff_witness :
  fails_with (normalize_response rt_q1 text_no_list) UnexpectedShape.
Proof.
  apply (normalizer_unexpected_shape_iff rt_q1 text_no_list).
  - reflexivity.
  - exists (PyDict [("count", PyInt 1); ("note", PyStr "none")]).
    split; [vm_compute; reflexivity|].
    left. eexists. split; [reflexivity|].
    constructor; [reflexivity|]. constructor; [reflexivity | constructor].
Defined.

(** The text [not json] is reported as malformed. *)
Lemma normalizer_parse_failure_witness :
  fails_with (normalize_response rt_q1 "not json") (MalformedJson "not json").
Proof.
  apply (normalizer_parse_failure rt_q1 "not json" JSONDecodeError).
  - discriminate.
  - vm_compute. reflexivity.
  - reflexivity.
Defined.

(** A failed call of the model ends in [None] under its error report. *)
Lemma generate_mcqs_none_is_reported_witness :
  outcome (generate_mcqs rt_quota "The text." 3 "key") = inr PyNone
  /\ exists body,
       page (generate_mcqs rt_quota "The text." 3 "key") = [st_error body].
Proof.
  split; [reflexivity|].
  apply (generate_mcqs_none_is_reported rt_quota "The text." 3 "key").
  reflexivity.
Defined.

(** A list of a number, a string and [null], wrapped in an object, is
    returned as it is. *)
Lemma generate_mcqs_returns_list_witness :
  generate_mcqs (scenario_runtime (inr text_odd_items)) "The text." 3 "key"
  = ([], inr (PyList [PyInt 1; PyStr "x"; PyNone])).
Proof.
  apply (proj2 (generate_mcqs_returns_list
                  (scenario_runtime (inr text_odd_items)) "The text." 3 "key")
           text_odd_items [("total", PyInt 3)] [] "items"
           [PyInt 1; PyStr "x"; PyNone]).
  - reflexivity.
  - reflexivity.
  - reflexivity.
  - vm_compute. reflexivity.
  - constructor; [reflexivity | constructor].
Defined.

(** A record of three options is skipped, and the record after it is
    rendered in full. *)
Lemma render_skips_wrong_option_count_witness :
  render_loop 0 [mcq_three_options; mcq_q1]
  = ([ question_header 0 (PyStr "Q2"); options_warning 0;
       question_header 1 (PyStr "Q1");
       options_radio 1 (PyList [PyStr "A"; PyStr "B"; PyStr "C"; PyStr "D"]);
       st_expander "Show Answer";
       st_success [Lit "Correct Answer: "; FmtVal (PyStr "B")];
       st_divider ], inr tt).
Proof.
  destruct (render_skips_wrong_option_count [mcq_three_options; mcq_q1])
    as (Hloop & Hskip & Hfull).
  rewrite Hloop. cbn [enumerate List.length seq combine map List.concat].
  unfold mcq_three_options at 1.
  rewrite (Hskip 0 _ (PyList [PyStr "A"; PyStr "B"; PyStr "C"]) 3
             eq_refl eq_refl eq_refl ltac:(discriminate)).
  unfold mcq_q1 at 1.
  rewrite (Hfull 1 _ (PyStr "Q1")
             (PyList [PyStr "A"; PyStr "B"; PyStr "C"; PyStr "D"]) (PyStr "B")
             eq_refl eq_refl eq_refl eq_refl eq_refl).
  reflexivity.
Defined.

(** A record without its question, one without its answer, and one without
    its answer and with three options, in one batch. *)
Lemma render_reports_missing_keys_witness :
  render_loop 0 [mcq_without_question; mcq_four_options_no_answer; mcq_without_answer]
  = ([ missing_key_report 0 "question" mcq_without_question;
       question_header 1 (PyStr "Q4");
       options_radio 1 (PyList [PyStr "A"; PyStr "B"; PyStr "C"; PyStr "D"]);
       st_expander "Show Answer";
       missing_key_report 1 "answer" mcq_four_options_no_answer;
       question_header 2 (PyStr "Q3"); options_warning 2 ], inr tt).
Proof.
  destruct (render_reports_missing_keys
              [mcq_without_question; mcq_four_options_no_answer; mcq_without_answer])
    as (Hloop & Hquestion & Hanswer & Hcount).
  rewrite Hloop. cbn [enumerate List.length seq combine map List.concat].
  unfold mcq_without_question at 1.
  rewrite (Hquestion 0 _ eq_refl eq_refl).
  unfold mcq_four_options_no_answer at 1.
  rewrite (Hanswer 1 _ (PyStr "Q4")
             (PyList [PyStr "A"; PyStr "B"; PyStr "C"; PyStr "D"])
             eq_refl eq_refl eq_refl eq_refl eq_refl).
  unfold mcq_without_answer at 1.
  rewrite (Hcount 2 _ (PyStr "Q3") (PyList [PyStr "A"; PyStr "B"; PyStr "C"]) 3
             eq_refl eq_refl eq_refl eq_refl ltac:(discriminate)).
  reflexivity.
Defined.

(** The answer [[]] to a click on a pasted text leaves the page as it is
    before any click. *)
Lemma empty_array_renders_as_idle_witness :
  main_layout (scenario_runtime (inr "[]")) "key" 3 "The text." true
    {| mcq_list := None |}
  = ([ st_subheader [Lit "Paste your text here:"];
       st_spinner "Generating... This might take a moment.";
       st_subheader [Lit "Generated MCQs"]; idle_info ],
     inr {| mcq_list := Some (PyList []) |}).
Proof.
  destruct (empty_array_renders_as_idle (scenario_runtime (inr "[]")) "key" 3
              "The text." {| mcq_list := None |})
    as (_ & Hcol1 & Hcol2 & _).
  - vm_compute. discriminate.
  - reflexivity.
  - reflexivity.
  - vm_compute. reflexivity.
  - unfold main_layout. rewrite Hcol1. cbn [bind]. rewrite Hcol2. reflexivity.
Defined.

(** * Further properties of the code *)

(** ** Blank text *)

Lemma lstrip_all_space (s : string) : all_space (lstrip s) = all_space s.
Proof.
  induction s as [|c s IH]; [reflexivity|].
  simpl. destruct (py_isspace c) eqn:E; simpl; [exact IH|].
  rewrite E. reflexivity.
Qed.

Lemma rstrip_empty_iff (s : string) :
  rstrip s = EmptyString <-> all_space s = true.
Proof.
  induction s as [|c s IH]; simpl; [split; reflexivity|].
  destruct (rstrip s) as [|c' r] eqn:E.
  - destruct (py_isspace c); simpl.
    + rewrite <- IH. split; reflexivity.
    + split; discriminate.
  - split; [discriminate|].
    intros H. apply andb_true_iff in H. destruct H as [_ H].
    apply IH in H. discriminate H.
Qed.

Lemma py_strip_empty_iff (s : string) :
  py_strip s = EmptyString <-> all_space s = true.
Proof.
  unfold py_strip. rewrite rstrip_empty_iff, lstrip_all_space. reflexivity.
Qed.

(** ** The first column *)

Lemma col1_not_clicked (rt : runtime) (API_KEY : string) (num_questions : Z)
    (context_text : string) (ss : session) :
  col1 rt API_KEY num_questions context_text false ss = ([col1_subheader], inr ss).
Proof. reflexivity. Qed.

Lemma col1_blank (rt : runtime) (API_KEY : string) (num_questions : Z)
    (context_text : string) (ss : session) :
  all_space context_text = true ->
  col1 rt API_KEY num_questions context_text true ss
  = ([col1_subheader; blank_warning], inr ss).
Proof.
  intros H. apply py_strip_empty_iff in H.
  unfold col1. rewrite H. reflexivity.
Qed.

Lemma col1_generates (rt : runtime) (API_KEY : string) (num_questions : Z)
    (context_text : string) (ss : session) :
  all_space context_text = false ->
  col1 rt API_KEY num_questions context_text true ss
  = (col1_subheader :: generating_spinner
       :: page (generate_mcqs rt context_text num_questions API_KEY),
     match outcome (generate_mcqs rt context_text num_questions API_KEY) with
     | inl e => inl e
     | inr v => inr {| mcq_list := Some v |}
     end).
Proof.
  intros H. unfold col1. rewrite bind_emit.
  destruct (py_strip context_text) as [|c t] eqn:E.
  - apply py_strip_empty_iff in E. congruence.
  - cbn [py_truthy String.eqb negb]. rewrite bind_emit.
    destruct (generate_mcqs rt context_text num_questions API_KEY) as [log [e|v]];
      [reflexivity|].
    unfold bind, ret, page, outcome. cbn [fst snd]. rewrite app_nil_r.
    reflexivity.
Qed.

(** X1. A click shows the paste-some-text warning exactly when every
    character of the text is whitespace (the empty text included); the session
    state is then left as it was and the runtime is not consulted. *)
Theorem col1_warns_iff_blank (rt : runtime) (API_KEY : string)
    (num_questions : Z) (context_text : string) (ss : session) :
  (In blank_warning
      (page (col1 rt API_KEY num_questions context_text true ss))
   <-> all_space context_text = true)
  /\ (all_space context_text = true ->
      forall rt' : runtime,
        col1 rt' API_KEY num_questions context_text true ss
        = ([col1_subheader; blank_warning], inr ss)).
Proof.
  split.
  - destruct (all_space context_text) eqn:E.
    + rewrite (col1_blank rt API_KEY num_questions context_text ss E).
      split; [reflexivity|]. intros _. right. left. reflexivity.
    + rewrite (col1_generates rt API_KEY num_questions context_text ss E).
      split; [|discriminate].
      intros [H | [H | H]]; try discriminate H.
      destruct (generate_mcqs_outcome rt context_text num_questions API_KEY)
        as [(l & Hg) | [(body & Hg) | Hg]]; rewrite Hg in H; simpl in H.
      * destruct H.
      * destruct H as [H | []]. discriminate H.
      * destruct H.
  - intros E rt'. apply col1_blank. exact E.
Qed.

(** ** The ways generate_mcqs ends *)

Lemma normalize_response_returns (rt : runtime) (s : string) :
  exists v, outcome (normalize_response rt s) = inr v.
Proof.
  destruct (normalize_response_outcome rt s) as [(l & ->) | (body & ->)];
    eexists; reflexivity.
Qed.

(** X2. [generate_mcqs] raises exactly when the client configures and the
    call of the model itself raises [JSONDecodeError]; whenever it raises, the
    exception is the [UnboundLocalError] of the first handler, which reads
    [json_string] before it is bound, and nothing has been shown. *)
Theorem generate_mcqs_raises_iff (rt : runtime) (context : string)
    (num_questions : Z) (api_key : string) :
  ((exists e, outcome (generate_mcqs rt context num_questions api_key) = inl e)
   <-> genai_configure rt api_key = None
       /\ generate_content rt GEMINI_MODEL generation_config
            (full_prompt context num_questions) = inl JSONDecodeError)
  /\ (forall e,
        outcome (generate_mcqs rt context num_questions api_key) = inl e ->
        generate_mcqs rt context num_questions api_key
        = ([], inl (UnboundLocalError "json_string"))).
Proof.
  split; [split|].
  - intros (e & He). unfold generate_mcqs in *.
    destruct (genai_configure rt api_key) as [e0|]; [discriminate He|].
    destruct (generate_content rt GEMINI_MODEL generation_config
                (full_prompt context num_questions)) as [e0|s].
    + destruct e0; try discriminate He. split; reflexivity.
    + destruct (normalize_response_returns rt s) as (v & Hv). congruence.
  - intros [Hconf Hcall]. unfold generate_mcqs. rewrite Hconf, Hcall.
    eexists. reflexivity.
  - intros e He.
    destruct (generate_mcqs_outcome rt context num_questions api_key)
      as [(l & Hg) | [(body & Hg) | Hg]]; rewrite Hg in He |- *;
      try discriminate He.
    reflexivity.
Qed.

(** X3. [generate_mcqs] shows at most one message, and it shows one exactly
    when it returns [None]: a returned list comes with a silent page. *)
Theorem generate_mcqs_message_iff_none (rt : runtime) (context : string)
    (num_questions : Z) (api_key : string) :
  List.length (page (generate_mcqs rt context num_questions api_key)) <= 1
  /\ (page (generate_mcqs rt context num_questions api_key) <> []
      <-> outcome (generate_mcqs rt context num_questions api_key) = inr PyNone).
Proof.
  destruct (generate_mcqs_outcome rt context num_questions api_key)
    as [(l & ->) | [(body & ->) | ->]]; simpl; (split; [lia|]).
  - split; [congruence | discriminate].
  - split; [reflexivity | discriminate].
  - split; [congruence | discriminate].
Qed.

(** X4. An exception other than [JSONDecodeError], raised by the call of the
    model or by [json.loads] on its non-empty text, is reported by the last
    handler with the exception in the message, and [None] is returned. *)
Theorem generate_mcqs_unexpected_error (rt : runtime) (context : string)
    (num_questions : Z) (api_key : string) (e : exn) :
  genai_configure rt api_key = None ->
  is_JSONDecodeError e = false ->
  generate_content rt GEMINI_MODEL generation_config
    (full_prompt context num_questions) = inl e
  \/ (exists c s,
        generate_content rt GEMINI_MODEL generation_config
          (full_prompt context num_questions) = inr (String c s)
        /\ json_loads rt (String c s) = inl e) ->
  generate_mcqs rt context num_questions api_key
  = ([unexpected_error_report e], inr PyNone).
Proof.
  intros Hconf He [Hcall | (c & s & Hcall & Hload)]; unfold generate_mcqs;
    rewrite Hconf, Hcall.
  - unfold api_handlers. rewrite He. reflexivity.
  - rewrite (normalize_response_raised rt c s e Hload).
    unfold api_handlers. rewrite He. reflexivity.
Qed.

(** ** One turn of the render loop, case by case *)

Lemma py_get_options (d : list (string * pyval)) :
  py_get (PyDict d) "options" (PyList []) = inr (options_of d).
Proof.
  unfold py_get, options_of. destruct (dict_lookup d "options"); reflexivity.
Qed.

Lemma record_page_table (i : nat) (mcq : pyval) :
  record_page (i, mcq) = record_table i mcq.
Proof.
  destruct mcq as [| b | z | f | s | l | d]; try reflexivity.
  unfold record_table.
  destruct (dict_lookup d "question") as [question|] eqn:Hq;
    [|exact (record_page_no_question i d Hq)].
  destruct (py_len (options_of d)) as [e|n] eqn:Hn.
  - unfold record_page, render_record, render_body. cbn [fst snd].
    unfold py_getitem at 1.
    rewrite Hq, bind_lift_inr, bind_emit, py_get_options, bind_lift_inr, Hn.
    rewrite bind_lift_inl.
    unfold raise, page, outcome, try_except, render_handlers. cbn [fst snd].
    assert (Hk : is_KeyError e = false).
    { unfold py_len in Hn. destruct (options_of d); inversion Hn; reflexivity. }
    rewrite Hk. reflexivity.
  - destruct (Nat.eqb n 4) eqn:E.
    + apply Nat.eqb_eq in E. subst n.
      destruct (dict_lookup d "answer") as [answer|] eqn:Ha.
      * exact (record_page_complete i d question _ answer Hq
                 (py_get_options d) Hn Ha).
      * exact (record_page_no_answer i d question _ Hq (py_get_options d) Hn Ha).
    + apply Nat.eqb_neq in E.
      exact (record_page_wrong_count i d question _ n Hq (py_get_options d) Hn E).
Qed.

(** X5. A record of the batch that is no object (a string, a number, a
    list, [null]) is reported by the last handler of the loop with the
    [TypeError] of its subscript, and nothing else is shown for it. *)
Theorem render_record_not_an_object (i : nat) (mcq : pyval) :
  is_dict mcq = false ->
  render_record i mcq
  = ([unknown_error_report i (TypeError OpGetItem mcq)], inr tt).
Proof.
  intros H. destruct mcq; try reflexivity. discriminate H.
Qed.

(** X6. A record with its question whose options have no length (a number,
    a boolean, [null]) shows its question and then the last handler's report
    with the [TypeError] of [len]; no option and no answer is shown. *)
Theorem render_record_options_without_length (i : nat)
    (d : list (string * pyval)) (question : pyval) (e : exn) :
  dict_lookup d "question" = Some question ->
  py_len (options_of d) = inl e ->
  render_record i (PyDict d)
  = ([question_header i question; unknown_error_report i e], inr tt)
  /\ e = TypeError OpLen (options_of d).
Proof.
  intros Hq Hn. split.
  - pose proof (record_page_table i (PyDict d)) as Hp.
    pose proof (render_record_normal i (PyDict d)) as Ho.
    unfold record_table in Hp. rewrite Hq, Hn in Hp.
    unfold record_page, page in Hp. cbn [fst snd] in Hp.
    unfold outcome in Ho.
    destruct (render_record i (PyDict d)) as [log r]. cbn [fst snd] in *.
    subst. reflexivity.
  - unfold py_len in Hn. destruct (options_of d); inversion Hn; reflexivity.
Qed.

(** X7. The answer of a record is shown only when the record is rendered in
    full: an object with its question, options of length 4 and its answer;
    the answer shown is then the record's own. *)
Theorem answer_shown_only_in_full (i : nat) (mcq : pyval) (body : fstring) :
  In (st_success body) (record_page (i, mcq)) ->
  exists d question answer,
    mcq = PyDict d
    /\ dict_lookup d "question" = Some question
    /\ py_len (options_of d) = inr 4
    /\ dict_lookup d "answer" = Some answer
    /\ body = [Lit "Correct Answer: "; FmtVal answer]
    /\ record_page (i, mcq)
       = question_header i question :: options_radio i (options_of d)
           :: answer_box answer.
Proof.
  rewrite record_page_table. unfold record_table.
  destruct mcq as [| b | z | f | s | l | d];
    try (intros [H | []]; discriminate H).
  destruct (dict_lookup d "question") as [question|] eqn:Hq;
    [|intros [H | []]; discriminate H].
  destruct (py_len (options_of d)) as [e|n] eqn:Hn;
    [intros [H | [H | []]]; discriminate H|].
  destruct (Nat.eqb n 4) eqn:E;
    [|intros [H | [H | []]]; discriminate H].
  apply Nat.eqb_eq in E. subst n.
  destruct (dict_lookup d "answer") as [answer|] eqn:Ha;
    [|intros [H | [H | [H | [H | []]]]]; discriminate H].
  intros [H | [H | [H | [H | [H | []]]]]]; try discriminate H.
  injection H as <-.
  exists d, question, answer. repeat split; assumption.
Qed.

(** X8. Every record of a batch shows between one and five events, the
    first of them its question or an error report; so no record passes
    unseen, and a batch of n records shows between n and 5n events. *)
Theorem render_loop_page_bounds (batch : list pyval) :
  (forall i mcq,
      (exists ev rest,
          record_page (i, mcq) = ev :: rest
          /\ ((exists question, ev = question_header i question)
              \/ exists report, ev = st_error report))
      /\ 1 <= List.length (record_page (i, mcq)) <= 5)
  /\ (forall i,
        List.length batch <= List.length (page (render_loop i batch))
        /\ List.length (page (render_loop i batch)) <= 5 * List.length batch).
Proof.
  assert (Hrec : forall i mcq,
      (exists ev rest,
          record_page (i, mcq) = ev :: rest
          /\ ((exists question, ev = question_header i question)
              \/ exists report, ev = st_error report))
      /\ 1 <= List.length (record_page (i, mcq)) <= 5).
  { intros i mcq. rewrite record_page_table. unfold record_table.
    destruct mcq as [| b | z | f | s | l | d];
      try (split; [do 2 eexists; split; [reflexivity | right; eexists; reflexivity]
                  | simpl; lia]).
    destruct (dict_lookup d "question") as [question|];
      [|split; [do 2 eexists; split; [reflexivity | right; eexists; reflexivity]
               | simpl; lia]].
    destruct (py_len (options_of d)) as [e|n];
      [split; [do 2 eexists; split; [reflexivity | left; eexists; reflexivity]
              | simpl; lia]|].
    destruct (Nat.eqb n 4);
      [|split; [do 2 eexists; split; [reflexivity | left; eexists; reflexivity]
               | simpl; lia]].
    destruct (dict_lookup d "answer");
      (split; [do 2 eexists; split; [reflexivity | left; eexists; reflexivity]
              | simpl; lia]). }
  split; [exact Hrec|].
  induction batch as [|mcq rest IH]; intros i; [simpl; lia|].
  rewrite render_loop_pages, enumerate_cons. cbn [map List.concat page fst].
  rewrite length_app.
  specialize (IH (S i)). rewrite render_loop_pages in IH. cbn [page fst] in IH.
  destruct (Hrec i mcq) as [_ Hlen].
  cbn [List.length]. lia.
Qed.

(** ** The loop over a batch *)

Lemma enumerate_app (a b : list pyval) :
  forall i,
    enumerate i (a ++ b) = enumerate i a ++ enumerate (i + List.length a) b.
Proof.
  induction a as [|mcq a IH]; intros i.
  - change ([] ++ b) with b. change (List.length (@nil pyval)) with 0.
    rewrite Nat.add_0_r. reflexivity.
  - change ((mcq :: a) ++ b) with (mcq :: (a ++ b)).
    rewrite !enumerate_cons, IH. cbn [List.length app].
    rewrite Nat.add_succ_r. reflexivity.
Qed.

(** X9. Rendering a batch made of two parts shows the first part as it is
    shown alone, then the second part numbered after the first: records added
    at the end leave the page of the earlier ones as it was. *)
Theorem render_loop_app (a b : list pyval) (i : nat) :
  render_loop i (a ++ b)
  = (page (render_loop i a) ++ page (render_loop (i + List.length a) b), inr tt).
Proof.
  rewrite !render_loop_pages. cbn [page fst].
  rewrite enumerate_app, map_app, concat_app. reflexivity.
Qed.

Lemma radio_keys_app (l1 l2 : list ui_event) :
  radio_keys (l1 ++ l2) = radio_keys l1 ++ radio_keys l2.
Proof.
  induction l1 as [|ev l1 IH]; [reflexivity|].
  destruct ev; simpl; rewrite IH; reflexivity.
Qed.

Lemma radio_keys_record (i : nat) (mcq : pyval) :
  radio_keys (record_page (i, mcq)) = []
  \/ radio_keys (record_page (i, mcq)) = [radio_key i].
Proof.
  rewrite record_page_table. unfold record_table.
  destruct mcq as [| b | z | f | s | l | d]; try (left; reflexivity).
  destruct (dict_lookup d "question"); [|left; reflexivity].
  destruct (py_len (options_of d)) as [e|n]; [left; reflexivity|].
  destruct (Nat.eqb n 4); [|left; reflexivity].
  destruct (dict_lookup d "answer"); right; reflexivity.
Qed.

Lemma radio_key_inj (i j : nat) : radio_key i = radio_key j -> i = j.
Proof. unfold radio_key. intros [= H]. lia. Qed.

Lemma radio_keys_loop_range (batch : list pyval) :
  forall i key,
    In key (radio_keys (page (render_loop i batch))) ->
    exists j, i <= j < i + List.length batch /\ key = radio_key j.
Proof.
  induction batch as [|mcq rest IH]; intros i key; [intros []|].
  rewrite render_loop_pages, enumerate_cons. cbn [map List.concat page fst].
  rewrite radio_keys_app, in_app_iff. intros [H | H].
  - destruct (radio_keys_record i mcq) as [E | E]; rewrite E in H.
    + destruct H.
    + destruct H as [<- | []]. exists i. cbn [List.length]. split; [lia | reflexivity].
  - specialize (IH (S i) key). rewrite render_loop_pages in IH.
    destruct (IH H) as (j & Hj & ->). exists j. cbn [List.length].
    split; [lia | reflexivity].
Qed.

(** X10. On the page of a batch no two radios share their key: the key of a
    radio is [mcq_] followed by the index of its record, and a record shows
    one radio at most. *)
Theorem radio_keys_unique (batch : list pyval) (i : nat) :
  NoDup (radio_keys (page (render_loop i batch)))
  /\ forall key,
       In key (radio_keys (page (render_loop i batch))) ->
       exists j, i <= j < i + List.length batch /\ key = radio_key j.
Proof.
  split; [|apply radio_keys_loop_range].
  revert i. induction batch as [|mcq rest IH]; intros i; [constructor|].
  rewrite render_loop_pages, enumerate_cons. cbn [map List.concat page fst].
  rewrite radio_keys_app.
  specialize (IH (S i)).
  pose proof (radio_keys_loop_range rest (S i)) as Hrange.
  rewrite render_loop_pages in IH, Hrange. cbn [page fst] in IH, Hrange.
  destruct (radio_keys_record i mcq) as [E | E]; rewrite E; [exact IH|].
  cbn [app]. constructor; [|exact IH].
  intros Hin. destruct (Hrange _ Hin) as (j & Hj & Heq).
  apply radio_key_inj in Heq. lia.
Qed.

(** ** The second column and the whole layout *)

Lemma col2_stored_batch (m : pyval) (l : list pyval) :
  col2 {| mcq_list := Some (PyList (m :: l)) |}
  = (col2_subheader :: List.concat (map record_page (enumerate 0 (m :: l))),
     inr tt).
Proof.
  unfold col2. rewrite bind_emit. cbn [mcq_list py_truthy negb py_iter].
  rewrite bind_lift_inr, render_loop_pages. reflexivity.
Qed.

Lemma col2_normal (ss : session) :
  session_ok ss -> outcome (col2 ss) = inr tt.
Proof.
  destruct ss as [[v|]]; unfold session_ok; cbn [mcq_list]; [|reflexivity].
  intros [-> | (l & ->)]; [reflexivity|].
  destruct l as [|m l]; [reflexivity|].
  rewrite col2_stored_batch. reflexivity.
Qed.

Lemma main_layout_normal (rt : runtime) (API_KEY : string) (num_questions : Z)
    (context_text : string) (clicked : bool) (ss ss' : session)
    (log : list ui_event) :
  col1 rt API_KEY num_questions context_text clicked ss = (log, inr ss') ->
  session_ok ss' ->
  main_layout rt API_KEY num_questions context_text clicked ss
  = (log ++ page (col2 ss'), inr ss').
Proof.
  intros Hcol1 Hok. unfold main_layout. rewrite Hcol1.
  pose proof (col2_normal ss' Hok) as H2.
  unfold bind, ret, page, outcome in *.
  destruct (col2 ss') as [log2 r2]. cbn [fst snd] in *. subst r2.
  rewrite app_nil_r. reflexivity.
Qed.

Lemma main_layout_raised (rt : runtime) (API_KEY : string) (num_questions : Z)
    (context_text : string) (clicked : bool) (ss : session)
    (log : list ui_event) (e : exn) :
  col1 rt API_KEY num_questions context_text clicked ss = (log, inl e) ->
  main_layout rt API_KEY num_questions context_text clicked ss = (log, inl e).
Proof. intros Hcol1. unfold main_layout. rewrite Hcol1. reflexivity. Qed.

(** X11. The stored batch is always one that [generate_mcqs] returns: from a
    session state holding nothing, [None] or a list, a run of the layout that
    ends leaves such a state again; and a run raises only through a click
    whose call of the model raises [JSONDecodeError], with the
    [UnboundLocalError] of the handler. *)
Theorem stored_batch_invariant (rt : runtime) (API_KEY : string)
    (num_questions : Z) (context_text : string) (clicked : bool) (ss : session) :
  session_ok ss ->
  (forall ss',
      outcome (main_layout rt API_KEY num_questions context_text clicked ss)
      = inr ss' -> session_ok ss')
  /\ (forall e,
        outcome (main_layout rt API_KEY num_questions context_text clicked ss)
        = inl e ->
        e = UnboundLocalError "json_string"
        /\ clicked = true
        /\ generate_content rt GEMINI_MODEL generation_config
             (full_prompt context_text num_questions) = inl JSONDecodeError).
Proof.
  intros Hok.
  assert (Hkeep : forall log,
             col1 rt API_KEY num_questions context_text clicked ss = (log, inr ss) ->
             (forall ss',
                 outcome (main_layout rt API_KEY num_questions context_text clicked ss)
                 = inr ss' -> session_ok ss')
             /\ (forall e,
                   outcome (main_layout rt API_KEY num_questions context_text clicked ss)
                   = inl e ->
                   e = UnboundLocalError "json_string"
                   /\ clicked = true
                   /\ generate_content rt GEMINI_MODEL generation_config
                        (full_prompt context_text num_questions)
                      = inl JSONDecodeError)).
  { intros log Hcol1.
    rewrite (main_layout_normal _ _ _ _ _ _ _ _ Hcol1 Hok). cbn [outcome snd].
    split; [intros ss' [= <-]; exact Hok | discriminate]. }
  destruct clicked; [|exact (Hkeep _ (col1_not_clicked _ _ _ _ _))].
  destruct (all_space context_text) eqn:Hsp;
    [exact (Hkeep _ (col1_blank _ _ _ _ _ Hsp))|].
  clear Hkeep.
  pose proof (col1_generates rt API_KEY num_questions context_text ss Hsp) as Hcol1.
  destruct (generate_mcqs_outcome rt context_text num_questions API_KEY)
    as [(l & Hg) | [(body & Hg) | Hg]]; rewrite Hg in Hcol1;
    cbn [page outcome fst snd] in Hcol1.
  - assert (Hok' : session_ok {| mcq_list := Some (PyList l) |})
      by (right; exists l; reflexivity).
    rewrite (main_layout_normal _ _ _ _ _ _ _ _ Hcol1 Hok'). cbn [outcome snd].
    split; [intros ss' [= <-]; exact Hok' | discriminate].
  - assert (Hok' : session_ok {| mcq_list := Some PyNone |})
      by (left; reflexivity).
    rewrite (main_layout_normal _ _ _ _ _ _ _ _ Hcol1 Hok'). cbn [outcome snd].
    split; [intros ss' [= <-]; exact Hok' | discriminate].
  - rewrite (main_layout_raised _ _ _ _ _ _ _ _ Hcol1). cbn [outcome snd].
    split; [discriminate|]. intros e [= <-].
    split; [reflexivity | split; [reflexivity|]].
    assert (Hex : exists e,
               outcome (generate_mcqs rt context_text num_questions API_KEY) = inl e)
      by (rewrite Hg; eexists; reflexivity).
    unfold generate_mcqs in Hg.
    destruct (genai_configure rt API_KEY); [discriminate Hg|].
    destruct (generate_content rt GEMINI_MODEL generation_config
                (full_prompt context_text num_questions)) as [e0|s].
    + destruct e0; try discriminate Hg. reflexivity.
    + destruct (normalize_response_returns rt s) as (v & Hv).
      rewrite Hg in Hv. discriminate Hv.
Qed.

(** X12. A generation that fails discards the batch stored before it: after
    a click on a text that is not blank, if [generate_mcqs] returns [None],
    the page is the error report between the two columns' fixed parts and the
    idle notice, and [None] is stored, whatever was stored before. *)
Theorem failed_generation_discards_batch (rt : runtime) (API_KEY : string)
    (num_questions : Z) (context_text : string) (ss : session) :
  all_space context_text = false ->
  outcome (generate_mcqs rt context_text num_questions API_KEY) = inr PyNone ->
  exists body,
    main_layout rt API_KEY num_questions context_text true ss
    = ([ col1_subheader; generating_spinner; st_error body;
         col2_subheader; idle_info ],
       inr {| mcq_list := Some PyNone |}).
Proof.
  intros Hsp Hnone.
  pose proof (col1_generates rt API_KEY num_questions context_text ss Hsp) as Hcol1.
  destruct (generate_mcqs_outcome rt context_text num_questions API_KEY)
    as [(l & Hg) | [(body & Hg) | Hg]]; rewrite Hg in Hnone, Hcol1;
    try discriminate Hnone.
  cbn [page outcome fst snd] in Hcol1.
  exists body.
  rewrite (main_layout_normal _ _ _ _ _ _ _ _ Hcol1); [reflexivity|].
  left. reflexivity.
Qed.

(** X13. A generation that succeeds is shown at once: after a click on a
    text that is not blank, when the model answers a text that parses as a
    non-empty array, the page is the fixed parts of the two columns and then
    the pages of the records of the array in order, and the array is
    stored. *)
Theorem generated_batch_is_rendered (rt : runtime) (API_KEY : string)
    (num_questions : Z) (context_text s : string) (m : pyval) (l : list pyval)
    (ss : session) :
  all_space context_text = false ->
  rejects_empty rt ->
  genai_configure rt API_KEY = None ->
  generate_content rt GEMINI_MODEL generation_config
    (full_prompt context_text num_questions) = inr s ->
  json_loads rt s = inr (PyList (m :: l)) ->
  main_layout rt API_KEY num_questions context_text true ss
  = (col1_subheader :: generating_spinner :: col2_subheader
       :: List.concat (map record_page (enumerate 0 (m :: l))),
     inr {| mcq_list := Some (PyList (m :: l)) |}).
Proof.
  intros Hsp Hempty Hconf Hresp Hload.
  pose proof (col1_generates rt API_KEY num_questions context_text ss Hsp) as Hcol1.
  rewrite (generate_mcqs_normalizes rt context_text num_questions API_KEY s
             Hconf Hresp) in Hcol1.
  destruct (loaded_nonempty rt s _ Hempty Hload) as (c & s' & ->).
  rewrite (normalize_response_loaded rt c s' _ Hload) in Hcol1.
  cbn [page outcome fst snd] in Hcol1.
  rewrite (main_layout_normal _ _ _ _ _ _ _ _ Hcol1);
    [|right; eexists; reflexivity].
  rewrite col2_stored_batch. reflexivity.
Qed.

(** X14. A run without a click shows the stored batch again and changes
    nothing: the page is the first column's subheader and the second column
    of the state as it was, the state is kept, and the runtime is not
    consulted. *)
Theorem rerun_shows_stored_batch (rt : runtime) (API_KEY : string)
    (num_questions : Z) (context_text : string) (ss : session) :
  session_ok ss ->
  main_layout rt API_KEY num_questions context_text false ss
  = (col1_subheader :: page (col2 ss), inr ss)
  /\ forall (rt' : runtime) (text' : string) (n' : Z),
       main_layout rt' API_KEY n' text' false ss
       = main_layout rt API_KEY num_questions context_text false ss.
Proof.
  intros Hok. split.
  - exact (main_layout_normal _ _ _ _ _ _ _ _ (col1_not_clicked _ _ _ _ _) Hok).
  - intros rt' text' n'.
    rewrite (main_layout_normal _ _ _ _ _ _ _ _ (col1_not_clicked rt' _ n' text' _) Hok).
    rewrite (main_layout_normal _ _ _ _ _ _ _ _ (col1_not_clicked rt _ _ _ _) Hok).
    reflexivity.
Qed.

(** ** The start of the script *)


(** * The further properties, run *)

Lemma col1_warns_iff_blank_witness :
  col1 rt_quota "key" 3 "   " true {| mcq_list := Some (PyList [mcq_q1]) |}
  = ([col1_subheader; blank_warning],
     inr {| mcq_list := Some (PyList [mcq_q1]) |}).
Proof.
  apply (proj2 (col1_warns_iff_blank rt_q1 "key" 3 "   "
                  {| mcq_list := Some (PyList [mcq_q1]) |})).
  reflexivity.
Defined.

Lemma generate_mcqs_raises_iff_witness :
  exists e,
    outcome (generate_mcqs (scenario_runtime (inl JSONDecodeError))
               "The text." 3 "key") = inl e.
Proof.
  apply (proj2 (proj1 (generate_mcqs_raises_iff
                         (scenario_runtime (inl JSONDecodeError))
                         "The text." 3 "key"))).
  split; reflexivity.
Defined.

Lemma generate_mcqs_message_iff_none_witness :
  outcome (generate_mcqs rt_quota "The text." 3 "key") = inr PyNone.
Proof.
  apply (proj1 (proj2 (generate_mcqs_message_iff_none rt_quota "The text." 3 "key"))).
  discriminate.
Defined.

Lemma generate_mcqs_unexpected_error_witness :
  generate_mcqs rt_quota "The text." 3 "key"
  = ([unexpected_error_report (OtherException "ResourceExhausted" "quota exceeded")],
     inr PyNone).
Proof.
  apply (generate_mcqs_unexpected_error rt_quota "The text." 3 "key").
  - reflexivity.
  - reflexivity.
  - left. reflexivity.
Defined.

Lemma render_record_not_an_object_witness :
  render_record 2 (PyStr "Q1")
  = ([unknown_error_report 2 (TypeError OpGetItem (PyStr "Q1"))], inr tt).
Proof.
  apply (render_record_not_an_object 2 (PyStr "Q1")). reflexivity.
Defined.

Lemma render_record_options_without_length_witness :
  render_record 0 mcq_number_options
  = ([ question_header 0 (PyStr "Q5");
       unknown_error_report 0 (TypeError OpLen (PyInt 4)) ], inr tt)
  /\ TypeError OpLen (PyInt 4) = TypeError OpLen (PyInt 4).
Proof.
  apply (render_record_options_without_length 0
           [("question", PyStr "Q5"); ("options", PyInt 4); ("answer", PyStr "A")]
           (PyStr "Q5") (TypeError OpLen (PyInt 4))).
  - reflexivity.
  - reflexivity.
Defined.

Lemma answer_shown_only_in_full_witness :
  exists d question answer,
    mcq_q1 = PyDict d
    /\ dict_lookup d "question" = Some question
    /\ py_len (options_of d) = inr 4
    /\ dict_lookup d "answer" = Some answer
    /\ [Lit "Correct Answer: "; FmtVal (PyStr "B")]
       = [Lit "Correct Answer: "; FmtVal answer]
    /\ record_page (0, mcq_q1)
       = question_header 0 question :: options_radio 0 (options_of d)
           :: answer_box answer.
Proof.
  apply (answer_shown_only_in_full 0 mcq_q1
           [Lit "Correct Answer: "; FmtVal (PyStr "B")]).
  right. right. right. left. reflexivity.
Defined.

Lemma radio_keys_unique_witness :
  exists j,
    0 <= j < 0 + List.length [mcq_q1; mcq_three_options; mcq_q1]
    /\ radio_key 2 = radio_key j.
Proof.
  apply (proj2 (radio_keys_unique [mcq_q1; mcq_three_options; mcq_q1] 0)
           (radio_key 2)).
  right. left. reflexivity.
Defined.

Lemma stored_batch_invariant_witness :
  session_ok {| mcq_list := Some (PyList [mcq_q1]) |}.
Proof.
  apply (proj1 (stored_batch_invariant rt_q1 "key" 3 "The text." true
                  {| mcq_list := None |} I)).
  vm_compute. reflexivity.
Defined.

Lemma failed_generation_discards_batch_witness :
  exists body,
    main_layout rt_quota "key" 3 "The text." true
      {| mcq_list := Some (PyList [mcq_q1]) |}
    = ([ col1_subheader; generating_spinner; st_error body;
         col2_subheader; idle_info ],
       inr {| mcq_list := Some PyNone |}).
Proof.
  apply (failed_generation_discards_batch rt_quota "key" 3 "The text."
           {| mcq_list := Some (PyList [mcq_q1]) |}).
  - reflexivity.
  - reflexivity.
Defined.

Lemma generated_batch_is_rendered_witness :
  main_layout rt_q1 "key" 3 "The text." true {| mcq_list := None |}
  = (col1_subheader :: generating_spinner :: col2_subheader
       :: List.concat (map record_page (enumerate 0 [mcq_q1])),
     inr {| mcq_list := Some (PyList [mcq_q1]) |}).
Proof.
  apply (generated_batch_is_rendered rt_q1 "key" 3 "The text." text_q1 mcq_q1 []).
  - reflexivity.
  - reflexivity.
  - reflexivity.
  - reflexivity.
  - vm_compute. reflexivity.
Defined.

Lemma rerun_shows_stored_batch_witness :
  main_layout rt_quota "key" 3 "The text." false
    {| mcq_list := Some (PyList [mcq_q1]) |}
  = (col1_subheader :: page (col2 {| mcq_list := Some (PyList [mcq_q1]) |}),
     inr {| mcq_list := Some (PyList [mcq_q1]) |}).
Proof.
  apply (proj1 (rerun_shows_stored_batch rt_quota "key" 3 "The text."
                  {| mcq_list := Some (PyList [mcq_q1]) |}
                  (or_intror (ex_intro _ [mcq_q1] eq_refl)))).
Defined.

